(** * EV savings calculator: the financial projection engine

    Shallow embedding of the savings engine that exists twice in the
    repository:

    - the Express handler [app.post('/calculate', ...)] of the API server
      (module [Server] below), and
    - the offline fallback [calculateSavings] of
      [src/utils/calculationUtils.ts] (module [Client] below).

    JavaScript numbers are modelled as real numbers: every arithmetic
    operation is the exact one, so overflow, NaN and the rounding error of
    IEEE doubles are outside the model.  Integer-valued quantities that
    drive loops ([loanTermYears], [periods], the month counter) are [nat];
    the reward tier and the calendar year are [Z]; fuel types are strings.

    Inside [Server] and [Client] the locals of the two functions keep their
    source names, one definition per [const].  Hence
    [Server.carbonTaxSavings data] is the unrounded local of the handler,
    while [carbonTaxSavings (Server.calculate data)] is the field of the
    returned object. *)

From Stdlib Require Import Reals Lra Lia ZArith List String Bool.
From Stdlib Require Import Rpower.
Import ListNotations.

Open Scope R_scope.

(** ** JavaScript numeric primitives *)

(** [Math.floor]: the greatest integer not above [x]. *)
Definition Math_floor (x : R) : Z := Zfloor x.

(** [Math.round(x)]: the nearest integer, a tie going to the larger one. *)
Definition Math_round (x : R) : R := IZR (Math_floor (x + 1 / 2)).

(** [Number(x.toFixed(2))]: nearest multiple of 1/100 of the magnitude, a tie
    going away from zero, with the sign put back. *)
Definition toFixed2 (x : R) : R :=
  if Rlt_dec x 0
  then - (IZR (Math_floor (- x * 100 + 1 / 2)) / 100)
  else IZR (Math_floor (x * 100 + 1 / 2)) / 100.

(** [Math.pow(x, n)] at an integer exponent. *)
Definition Math_pow (x : R) (n : nat) : R := x ^ n.

(** [Math.pow(x, y)] at a fractional exponent and a positive base, as used by
    [calculateCumulativeCost]. *)
Definition Math_pow_frac (x y : R) : R := Rpower x y.

(** ** Data and constants (identical in both implementations) *)

(** [table[key] || dflt] on an object literal: a missing key and a falsy
    (zero) entry both give the default. *)
Fixpoint lookup_str (tbl : list (string * R)) (k : string) : option R :=
  match tbl with
  | [] => None
  | (k', v) :: rest => if String.eqb k k' then Some v else lookup_str rest k
  end.

Fixpoint lookup_Z (tbl : list (Z * R)) (k : Z) : option R :=
  match tbl with
  | [] => None
  | (k', v) :: rest => if Z.eqb k k' then Some v else lookup_Z rest k
  end.

Definition or_else (o : option R) (dflt : R) : R :=
  match o with
  | Some v => if Req_dec_T v 0 then dflt else v
  | None => dflt
  end.

Definition FUEL_PRICES : list (string * R) :=
  [("diesel"%string, 19.32); ("petrol95"%string, 21.62); ("petrol93"%string, 21.51)].

Definition FUEL_CONSUMPTION : list (string * R) :=
  [("diesel"%string, 8); ("petrol95"%string, 9); ("petrol93"%string, 9)].

Definition BASE_EBUCKS : list (Z * R) :=
  [(1%Z, 0.20 * 0.75); (2%Z, 0.40 * 0.75); (3%Z, 0.80 * 0.75);
   (4%Z, 2.00 * 0.75); (5%Z, 4.00 * 0.75)].

Definition INSURANCE_RATES : list (Z * R) :=
  [(1%Z, 0.10); (2%Z, 0.20); (3%Z, 0.40); (4%Z, 0.80); (5%Z, 2.00)].

Definition FINANCING_RATES : list (Z * R) :=
  [(1%Z, 0.10); (2%Z, 0.20); (3%Z, 0.40); (4%Z, 0.80); (5%Z, 2.00)].

Definition MONTHLY_FUEL_SPEND_CAP : R := 3000.
Definition DISCOUNT_RATE : R := 0.1095.
Definition DEFAULT_YEARS : nat := 5.

Definition CARBON_TAX : list (Z * R) :=
  [(2025%Z, 236); (2026%Z, 308); (2027%Z, 347); (2028%Z, 390);
   (2029%Z, 440); (2030%Z, 495); (2031%Z, 495); (2032%Z, 495)].

Definition CO2_PER_LITRE : R := 2.35.
Definition EV_CONSUMPTION : R := 0.189.
Definition STANDARD_ESKOM_RATE : R := 3.7.
Definition PREMIUM_ESKOM_RATE : R := 7.
Definition ESKOM_RATE : R :=
  (STANDARD_ESKOM_RATE * 0.9) + (PREMIUM_ESKOM_RATE * 0.1).

Definition CO2_GRID : R := 0.9.
Definition CO2_SOLAR : R := 0.09.

(** ** Helper functions (identical in both implementations) *)

Definition presentValueOfGrowingAnnuity
    (cashFlow growthRate discountRate : R) (periods : nat) : R :=
  if Rlt_dec (Rabs (growthRate - discountRate)) 1e-9
  then cashFlow * INR periods / Math_pow (1 + discountRate) periods
  else cashFlow
       * ((Math_pow (1 + growthRate) periods - Math_pow (1 + discountRate) periods)
          / (growthRate - discountRate))
       / Math_pow (1 + discountRate) periods.

Definition presentValue (cashFlow discountRate : R) (yearIndex : nat) : R :=
  cashFlow / Math_pow (1 + discountRate) yearIndex.

Definition calculateMonthlyCO2 (distance : R) (fuelType : string) : R :=
  let consumptionRate := or_else (lookup_str FUEL_CONSUMPTION fuelType) 9 in
  let monthlyLitres := (consumptionRate * distance) / 100 in
  let monthlyCO2 := monthlyLitres * CO2_PER_LITRE in
  monthlyCO2.

(** [let acc = 0; for (let i = 0; i < n; i++) acc += body(i)]. *)
Definition for_sum (n : nat) (body : nat -> R) : R :=
  fold_left (fun acc i => acc + body i) (seq 0 n) 0.

(** [Array.from({ length: n }, (_, i) => f(i)).reduce((a, b) => a + b, 0)]. *)
Definition array_from_sum (n : nat) (f : nat -> R) : R :=
  fold_left Rplus (map f (seq 0 n)) 0.

(** [Math.max(...Object.keys(tbl).map(Number))]. *)
Definition max_key (tbl : list (Z * R)) : Z :=
  match map fst tbl with
  | [] => 0%Z
  | k :: ks => fold_left Z.max ks k
  end.

(** [CARBON_TAX[year] || CARBON_TAX[Math.max(...keys)]]: the rate of the
    year, or the rate of the table's last year when the year is missing. *)
Definition carbonTaxRate (year : Z) : R :=
  or_else (lookup_Z CARBON_TAX year)
          (match lookup_Z CARBON_TAX (max_key CARBON_TAX) with
           | Some v => v
           | None => 0
           end).

(** ** Input and result records *)

(** The request body / [CalculationInput], after [parseInt] and
    [parseFloat].  [loanTermYears = 0] also stands for an absent field. *)
Record CalculationInput : Type := mkInput {
  ebucksLevel : Z;
  fuelType : string;
  distance : R;
  hasInsurance : bool;
  hasFinancing : bool;
  hasSolar : bool;
  hasNoBank : bool;
  loanTermYears : nat
}.

Record StandardUpfrontBenefits : Type := mkStandard {
  std_presentValueEbucks : R;
  std_carbonTaxSavings : R;
  std_upfrontSavings : R
}.

Record Co2Emissions : Type := mkCo2 {
  ice : R;
  ev : R;
  monthlySavings : R;
  yearlySavings : R
}.

Record CalculationResult : Type := mkResult {
  presentValueEbucks : R;
  carbonTaxSavings : R;
  fuelSpendSavings : R;
  upfrontSavings : R;
  totalSavings : R;
  standardUpfrontBenefits : StandardUpfrontBenefits;
  co2Emissions : Co2Emissions
}.

(** ** The API server: [POST /calculate] *)

Module Server.

Definition FUEL_INFLATION : R := 0.09.

Definition calculateStandardUpfrontBenefits
    (distance : R) (fuelType : string) (ebucksLevel : Z)
    : StandardUpfrontBenefits :=
  let consumptionRate := or_else (lookup_str FUEL_CONSUMPTION fuelType) 9 in
  let monthlyLitres := (consumptionRate * distance) / 100 in
  let fuelPrice := or_else (lookup_str FUEL_PRICES fuelType) 21.62 in
  let monthlyFuelSpend := monthlyLitres * fuelPrice in
  let baseRate := or_else (lookup_Z BASE_EBUCKS ebucksLevel) 0 in
  let insuranceRate := or_else (lookup_Z INSURANCE_RATES ebucksLevel) 0 in
  let financingRate := or_else (lookup_Z FINANCING_RATES ebucksLevel) 0 in
  let totalRate := baseRate + insuranceRate + financingRate in
  let effectiveFuelSpend := Rmin monthlyFuelSpend MONTHLY_FUEL_SPEND_CAP in
  let qualifyingLitres := effectiveFuelSpend / fuelPrice in
  let year1Ebucks := totalRate * qualifyingLitres * 12 in
  let annualLitres := monthlyLitres * 12 in
  let annualTonnesCo2 := (annualLitres * CO2_PER_LITRE) / 1000 in
  let currentYear := 2025%Z in
  let carbonTaxSavings :=
    for_sum 5 (fun i =>
      let year := (currentYear + Z.of_nat i)%Z in
      let rate := carbonTaxRate year in
      let annualCarbonCost := annualTonnesCo2 * rate in
      presentValue annualCarbonCost DISCOUNT_RATE (i + 1)) in
  let pvEbucks :=
    presentValueOfGrowingAnnuity year1Ebucks FUEL_INFLATION DISCOUNT_RATE 5 in
  let upfrontSavings := pvEbucks + carbonTaxSavings in
  {| std_presentValueEbucks := Math_round (pvEbucks * 100) / 100;
     std_carbonTaxSavings := Math_round (carbonTaxSavings * 100) / 100;
     std_upfrontSavings := Math_round (upfrontSavings * 100) / 100 |}.

Section Handler.

Variable data : CalculationInput.

(** Parse inputs.  The locals [fuelType], [hasInsurance], [hasFinancing],
    [hasSolar] and [hasNoBank] are the fields of [data] themselves. *)
Definition level : Z := ebucksLevel data.
Definition distanceMonthly : R := distance data.
(** [data.loanTermYears || DEFAULT_YEARS]; from here on [loanTermYears] is
    this local, as in the source. *)
Definition loanTermYears : nat :=
  if Nat.eqb (loanTermYears data) 0 then DEFAULT_YEARS else loanTermYears data.

(** 1. ICE fuel consumption and costs *)
Definition consumptionRate : R :=
  or_else (lookup_str FUEL_CONSUMPTION (fuelType data)) 9.
Definition monthlyLitres : R := (consumptionRate * distanceMonthly) / 100.
Definition fuelPrice : R := or_else (lookup_str FUEL_PRICES (fuelType data)) 21.62.
Definition monthlyFuelSpend : R := monthlyLitres * fuelPrice.

Definition year1FuelCost : R := monthlyFuelSpend * 12.
Definition pvFuelCost : R :=
  for_sum loanTermYears (fun i =>
    let costYear := year1FuelCost * Math_pow (1 + FUEL_INFLATION) i in
    presentValue costYear DISCOUNT_RATE (i + 1)).

(** 2. EV charging costs *)
Definition annualEvCost : R := distanceMonthly * 12 * EV_CONSUMPTION * ESKOM_RATE.
Definition pvEvCost : R :=
  if hasSolar data
  then let solarEvCost := annualEvCost * 0.1 in
       array_from_sum loanTermYears (fun i => presentValue solarEvCost DISCOUNT_RATE (i + 1))
  else array_from_sum loanTermYears (fun i => presentValue annualEvCost DISCOUNT_RATE (i + 1)).

Definition fuelSpendSavings : R := pvFuelCost - pvEvCost.

(** 3. eBucks calculation *)
Definition baseRate : R :=
  if negb (hasNoBank data) then or_else (lookup_Z BASE_EBUCKS level) 0 else 0.
Definition insuranceRate : R :=
  if negb (hasNoBank data)
  then (if hasInsurance data then or_else (lookup_Z INSURANCE_RATES level) 0 else 0)
  else 0.
Definition financingRate : R :=
  if negb (hasNoBank data)
  then (if hasFinancing data then or_else (lookup_Z FINANCING_RATES level) 0 else 0)
  else 0.
Definition totalRate : R := baseRate + insuranceRate + financingRate.

Definition effectiveFuelSpend : R := Rmin monthlyFuelSpend MONTHLY_FUEL_SPEND_CAP.
Definition qualifyingLitres : R := effectiveFuelSpend / fuelPrice.
Definition year1Ebucks : R := totalRate * qualifyingLitres * 12.

Definition pvEbucks : R :=
  presentValueOfGrowingAnnuity year1Ebucks FUEL_INFLATION DISCOUNT_RATE 5.

(** 4. Carbon tax savings *)
Definition carbonTaxSavings : R :=
  if negb (hasNoBank data)
  then let annualLitres := monthlyLitres * 12 in
       let annualTonnesCo2 := (annualLitres * CO2_PER_LITRE) / 1000 in
       let currentYear := 2025%Z in
       for_sum 5 (fun i =>
         let year := (currentYear + Z.of_nat i)%Z in
         let rate := carbonTaxRate year in
         let annualCarbonCost := annualTonnesCo2 * rate in
         presentValue annualCarbonCost DISCOUNT_RATE (i + 1))
  else 0.

(** 5. Breakdown of savings *)
Definition upfrontSavings : R := pvEbucks + carbonTaxSavings.
Definition loanTermSavings : R := fuelSpendSavings.
Definition totalSavings : R := upfrontSavings + loanTermSavings.

(** 6. Standard upfront benefits for comparison *)
Definition standardUpfrontBenefits : StandardUpfrontBenefits :=
  calculateStandardUpfrontBenefits distanceMonthly (fuelType data) 4.

(** 7. CO2 emissions *)
Definition iceMonthlyEmissions : R := calculateMonthlyCO2 distanceMonthly (fuelType data).
Definition evMonthlyEmissions : R :=
  if hasSolar data
  then distanceMonthly * EV_CONSUMPTION * CO2_SOLAR
  else distanceMonthly * EV_CONSUMPTION * CO2_GRID.
Definition monthlyCO2Savings : R := iceMonthlyEmissions - evMonthlyEmissions.
Definition yearlyCO2Savings : R := monthlyCO2Savings * 12.

(** The JSON body of the response, field by field: [presentValueEbucks],
    [carbonTaxSavings], [fuelSpendSavings], [upfrontSavings], [totalSavings],
    [standardUpfrontBenefits] and [co2Emissions] with its [ice], [ev],
    [monthlySavings] and [yearlySavings]. *)
Definition calculate : CalculationResult :=
  mkResult
    (Math_round (pvEbucks * 100) / 100)
    (Math_round (carbonTaxSavings * 100) / 100)
    (Math_round (loanTermSavings * 100) / 100)
    (Math_round (upfrontSavings * 100) / 100)
    (Math_round (totalSavings * 100) / 100)
    standardUpfrontBenefits
    (mkCo2
       (Math_round (iceMonthlyEmissions * 100) / 100)
       (Math_round (evMonthlyEmissions * 100) / 100)
       (Math_round (monthlyCO2Savings * 100) / 100)
       (Math_round (yearlyCO2Savings * 100) / 100)).

End Handler.

End Server.

(** ** The offline fallback: [calculateSavings] of [calculationUtils.ts] *)

Module Client.

Definition FUEL_INFLATION : R := 0.075.
Definition ELECTRICITY_INFLATION : R := 0.1062.

Definition calculateStandardUpfrontBenefits
    (distance : R) (fuelType : string) (ebucksLevel : Z)
    : StandardUpfrontBenefits :=
  let consumptionRate := or_else (lookup_str FUEL_CONSUMPTION fuelType) 9 in
  let monthlyLitres := (consumptionRate * distance) / 100 in
  let fuelPrice := or_else (lookup_str FUEL_PRICES fuelType) 21.62 in
  let monthlyFuelSpend := monthlyLitres * fuelPrice in
  let baseRate := or_else (lookup_Z BASE_EBUCKS ebucksLevel) 0 in
  let insuranceRate := or_else (lookup_Z INSURANCE_RATES ebucksLevel) 0 in
  let financingRate := or_else (lookup_Z FINANCING_RATES ebucksLevel) 0 in
  let totalRate := baseRate + insuranceRate + financingRate in
  let effectiveFuelSpend := Rmin monthlyFuelSpend MONTHLY_FUEL_SPEND_CAP in
  let qualifyingLitres := effectiveFuelSpend / fuelPrice in
  let year1Ebucks := totalRate * qualifyingLitres * 12 in
  let annualLitres := monthlyLitres * 12 in
  let annualTonnesCo2 := (annualLitres * CO2_PER_LITRE) / 1000 in
  let currentYear := 2025%Z in
  let carbonTaxSavings :=
    for_sum 5 (fun i =>
      let year := (currentYear + Z.of_nat i)%Z in
      let rate := carbonTaxRate year in
      let annualCarbonCost := annualTonnesCo2 * rate in
      presentValue annualCarbonCost DISCOUNT_RATE (i + 1)) in
  let pvEbucks :=
    presentValueOfGrowingAnnuity year1Ebucks FUEL_INFLATION DISCOUNT_RATE 5 in
  let upfrontSavings := pvEbucks + carbonTaxSavings in
  {| std_presentValueEbucks := Math_round (pvEbucks * 100) / 100;
     std_carbonTaxSavings := Math_round (carbonTaxSavings * 100) / 100;
     std_upfrontSavings := Math_round (upfrontSavings * 100) / 100 |}.

(** Sum of [months] monthly costs, month [m] inflated by
    [(1 + annualInflation)^(m/12)]. *)
Definition calculateCumulativeCost
    (monthlyBaseCost annualInflation : R) (months : nat) : R :=
  for_sum months (fun month =>
    let inflatedMonthlyCost :=
      monthlyBaseCost * Math_pow_frac (1 + annualInflation) (INR month / 12) in
    inflatedMonthlyCost).

Section CalculateSavings.

Variable data : CalculationInput.

(** Parse inputs; the flags and [fuelType] are the fields of [data]. *)
Definition level : Z := ebucksLevel data.
Definition distanceMonthly : R := distance data.
(** [data.loanTermYears || DEFAULT_YEARS]; from here on [loanTermYears] is
    this local, as in the source. *)
Definition loanTermYears : nat :=
  if Nat.eqb (loanTermYears data) 0 then DEFAULT_YEARS else loanTermYears data.

(** 1. ICE fuel consumption and costs *)
Definition consumptionRate : R :=
  or_else (lookup_str FUEL_CONSUMPTION (fuelType data)) 9.
Definition monthlyLitres : R := (consumptionRate * distanceMonthly) / 100.
Definition fuelPrice : R := or_else (lookup_str FUEL_PRICES (fuelType data)) 21.62.
Definition monthlyFuelSpend : R := monthlyLitres * fuelPrice.

Definition monthlyChargingRate : R := ESKOM_RATE.
Definition monthlyEvConsumption : R := distanceMonthly * EV_CONSUMPTION.
Definition baseMonthlyChargingCost : R := monthlyEvConsumption * monthlyChargingRate.
Definition monthlyChargingCost : R :=
  if hasSolar data then baseMonthlyChargingCost * 0.1 else baseMonthlyChargingCost.

(** Nominal cumulative costs over the loan term (not discounted). *)
Definition totalMonths : nat := (loanTermYears * 12)%nat.
Definition cumFuel : R :=
  calculateCumulativeCost monthlyFuelSpend FUEL_INFLATION totalMonths.
Definition cumCharge : R :=
  calculateCumulativeCost monthlyChargingCost ELECTRICITY_INFLATION totalMonths.
Definition rawFuelSpendSavings : R := toFixed2 (cumFuel - cumCharge).

(** 2. EV charging costs *)
Definition annualEvCost : R := distanceMonthly * 12 * EV_CONSUMPTION * ESKOM_RATE.
Definition pvEvCost : R :=
  if hasSolar data
  then let solarEvCost := annualEvCost * 0.1 in
       array_from_sum loanTermYears (fun i => presentValue solarEvCost DISCOUNT_RATE (i + 1))
  else array_from_sum loanTermYears (fun i => presentValue annualEvCost DISCOUNT_RATE (i + 1)).

(** The local [fuelSpendSavings]; the returned object does not use it. *)
Definition fuelSpendSavings : R := rawFuelSpendSavings - pvEvCost.

(** 3. eBucks calculation *)
Definition baseRate : R :=
  if negb (hasNoBank data) then or_else (lookup_Z BASE_EBUCKS level) 0 else 0.
Definition insuranceRate : R :=
  if negb (hasNoBank data)
  then (if hasInsurance data then or_else (lookup_Z INSURANCE_RATES level) 0 else 0)
  else 0.
Definition financingRate : R :=
  if negb (hasNoBank data)
  then (if hasFinancing data then or_else (lookup_Z FINANCING_RATES level) 0 else 0)
  else 0.
Definition totalRate : R := baseRate + insuranceRate + financingRate.

Definition effectiveFuelSpend : R := Rmin monthlyFuelSpend MONTHLY_FUEL_SPEND_CAP.
Definition qualifyingLitres : R := effectiveFuelSpend / fuelPrice.
Definition year1Ebucks : R := totalRate * qualifyingLitres * 12.

Definition pvEbucks : R :=
  presentValueOfGrowingAnnuity year1Ebucks FUEL_INFLATION DISCOUNT_RATE 5.

(** 4. Carbon tax savings *)
Definition carbonTaxSavings : R :=
  if negb (hasNoBank data)
  then let annualLitres := monthlyLitres * 12 in
       let annualTonnesCo2 := (annualLitres * CO2_PER_LITRE) / 1000 in
       let currentYear := 2025%Z in
       for_sum 5 (fun i =>
         let year := (currentYear + Z.of_nat i)%Z in
         let rate := carbonTaxRate year in
         let annualCarbonCost := annualTonnesCo2 * rate in
         presentValue annualCarbonCost DISCOUNT_RATE (i + 1))
  else 0.

(** 5. Breakdown of savings *)
Definition upfrontSavings : R := pvEbucks + carbonTaxSavings.
Definition loanTermSavings : R := fuelSpendSavings.
Definition totalSavings : R := upfrontSavings + loanTermSavings.

(** 6. Standard upfront benefits for comparison *)
Definition standardUpfrontBenefits : StandardUpfrontBenefits :=
  calculateStandardUpfrontBenefits distanceMonthly (fuelType data) 4.

(** 7. CO2 emissions *)
Definition iceMonthlyEmissions : R := calculateMonthlyCO2 distanceMonthly (fuelType data).
Definition evMonthlyEmissions : R :=
  if hasSolar data
  then distanceMonthly * EV_CONSUMPTION * CO2_SOLAR
  else distanceMonthly * EV_CONSUMPTION * CO2_GRID.
Definition monthlyCO2Savings : R := iceMonthlyEmissions - evMonthlyEmissions.
Definition yearlyCO2Savings : R := monthlyCO2Savings * 12.

(** The returned object, every number through [toFixed(2)], field by
    field: [presentValueEbucks], [carbonTaxSavings], [fuelSpendSavings],
    [upfrontSavings], [totalSavings], [standardUpfrontBenefits] and
    [co2Emissions] with its [ice], [ev], [monthlySavings] and
    [yearlySavings]. *)
Definition calculateSavings : CalculationResult :=
  mkResult
    (toFixed2 pvEbucks)
    (toFixed2 carbonTaxSavings)
    rawFuelSpendSavings
    (toFixed2 upfrontSavings)
    (toFixed2 (upfrontSavings + rawFuelSpendSavings))
    (mkStandard
       (toFixed2 (std_presentValueEbucks standardUpfrontBenefits))
       (toFixed2 (std_carbonTaxSavings standardUpfrontBenefits))
       (toFixed2 (std_upfrontSavings standardUpfrontBenefits)))
    (mkCo2
       (toFixed2 iceMonthlyEmissions)
       (toFixed2 evMonthlyEmissions)
       (toFixed2 monthlyCO2Savings)
       (toFixed2 yearlyCO2Savings)).

End CalculateSavings.

End Client.

(** ** Reference formulas, written as the specification words them *)

(** [sum_first n f] is the sum of [f 0 .. f (n-1)]. *)
Fixpoint sum_first (n : nat) (f : nat -> R) : R :=
  match n with
  | O => 0
  | S k => sum_first k f + f k
  end.

(** The explicit loop: escalate the year-1 cash flow by [g] each year,
    discount year [i+1] by [(1+d)^(i+1)], and sum [n] years. *)
Definition spec_escalatedStreamPV (cf g d : R) (n : nat) : R :=
  sum_first n (fun i => cf * (1 + g) ^ i / (1 + d) ^ (i + 1)).

(** A level stream of [n] equal yearly amounts, each discounted. *)
Definition spec_levelStreamPV (c d : R) (n : nat) : R :=
  sum_first n (fun i => c / (1 + d) ^ (i + 1)).

(** The carbon-tax present value: the five years 2025 to 2029 at their
    table rates, each discounted at 10.95%. *)
Definition spec_carbonTaxPV (tonnes : R) : R :=
  sum_first 5 (fun i =>
    tonnes * nth i [236; 308; 347; 390; 440] 0 / (1 + 0.1095) ^ (i + 1)).

(** The loan term after defaulting: five years when absent or zero. *)
Definition spec_termYears (data : CalculationInput) : nat :=
  match loanTermYears data with O => 5%nat | S _ => loanTermYears data end.

(** Monthly fuel spend: consumption / 100 x distance x price. *)
Definition spec_monthlyFuelSpend (data : CalculationInput) : R :=
  or_else (lookup_str FUEL_CONSUMPTION (fuelType data)) 9 / 100
  * distance data
  * or_else (lookup_str FUEL_PRICES (fuelType data)) 21.62.

(** Annual EV energy cost: distance x 12 x per-km consumption x blended
    rate, reduced to 10% with solar. *)
Definition spec_annualEnergyCost (data : CalculationInput) : R :=
  let cost := distance data * 12 * EV_CONSUMPTION * ESKOM_RATE in
  if hasSolar data then cost * 0.1 else cost.

(** PV(ICE fuel cost) - PV(EV energy cost) over the loan term. *)
Definition spec_fuelSpendSavings (fuelInflation : R) (data : CalculationInput) : R :=
  spec_escalatedStreamPV (spec_monthlyFuelSpend data * 12) fuelInflation
    DISCOUNT_RATE (spec_termYears data)
  - spec_levelStreamPV (spec_annualEnergyCost data) DISCOUNT_RATE
      (spec_termYears data).

(** What the client returns instead: undiscounted monthly fuel costs,
    inflated at 7.5% a year, minus undiscounted monthly charging costs,
    inflated at 10.62% a year, over the months of the loan term. *)
Definition nominal_cumulative_savings (data : CalculationInput) : R :=
  let months := (spec_termYears data * 12)%nat in
  let charging := distance data * EV_CONSUMPTION * ESKOM_RATE in
  sum_first months (fun m =>
    spec_monthlyFuelSpend data * Rpower (1 + 0.075) (INR m / 12))
  - sum_first months (fun m =>
      (if hasSolar data then charging * 0.1 else charging)
      * Rpower (1 + 0.1062) (INR m / 12)).

(** [v] is [x] rounded to a whole number of hundredths. *)
Definition is_round2 (v x : R) : Prop :=
  exists k : Z, v = IZR k / 100 /\ Rabs (v - x) <= 1 / 200.

(** ** Relations between requests *)

Definition differ_only_in_distance (d1 d2 : CalculationInput) : Prop :=
  ebucksLevel d1 = ebucksLevel d2 /\ fuelType d1 = fuelType d2
  /\ hasInsurance d1 = hasInsurance d2 /\ hasFinancing d1 = hasFinancing d2
  /\ hasSolar d1 = hasSolar d2 /\ hasNoBank d1 = hasNoBank d2
  /\ loanTermYears d1 = loanTermYears d2.

Definition differ_only_in_hasNoBank (d1 d2 : CalculationInput) : Prop :=
  ebucksLevel d1 = ebucksLevel d2 /\ fuelType d1 = fuelType d2
  /\ distance d1 = distance d2
  /\ hasInsurance d1 = hasInsurance d2 /\ hasFinancing d1 = hasFinancing d2
  /\ hasSolar d1 = hasSolar d2 /\ loanTermYears d1 = loanTermYears d2.

Definition differ_only_in_loanTermYears (d1 d2 : CalculationInput) : Prop :=
  ebucksLevel d1 = ebucksLevel d2 /\ fuelType d1 = fuelType d2
  /\ distance d1 = distance d2
  /\ hasInsurance d1 = hasInsurance d2 /\ hasFinancing d1 = hasFinancing d2
  /\ hasSolar d1 = hasSolar d2 /\ hasNoBank d1 = hasNoBank d2.

(** The same request with [hasSolar] set to [b]. *)
Definition with_solar (b : bool) (data : CalculationInput) : CalculationInput :=
  {| ebucksLevel := ebucksLevel data; fuelType := fuelType data;
     distance := distance data; hasInsurance := hasInsurance data;
     hasFinancing := hasFinancing data; hasSolar := b;
     hasNoBank := hasNoBank data; loanTermYears := loanTermYears data |}.

(** The fixed reference scenario of the comparison figures: tier 4, both
    add-ons, bank affiliated, five years. *)
Definition reference_scenario (data : CalculationInput) : CalculationInput :=
  {| ebucksLevel := 4; fuelType := fuelType data; distance := distance data;
     hasInsurance := true; hasFinancing := true; hasSolar := hasSolar data;
     hasNoBank := false; loanTermYears := 5 |}.

(** ** Example requests *)

(** The request shown on the server's landing page. *)
Definition example_request : CalculationInput :=
  {| ebucksLevel := 3; fuelType := "petrol95"; distance := 1500;
     hasInsurance := true; hasFinancing := true; hasSolar := false;
     hasNoBank := false; loanTermYears := 5 |}.

(** Variants of it: without bank affiliation, *)
Definition example_no_bank : CalculationInput :=
  {| ebucksLevel := 3; fuelType := "petrol95"; distance := 1500;
     hasInsurance := true; hasFinancing := true; hasSolar := false;
     hasNoBank := true; loanTermYears := 5 |}.

(** over seven years, *)
Definition request_seven_years : CalculationInput :=
  {| ebucksLevel := 3; fuelType := "petrol95"; distance := 1500;
     hasInsurance := true; hasFinancing := true; hasSolar := false;
     hasNoBank := false; loanTermYears := 7 |}.

(** over one year, *)
Definition request_one_year : CalculationInput :=
  {| ebucksLevel := 3; fuelType := "petrol95"; distance := 1500;
     hasInsurance := true; hasFinancing := true; hasSolar := false;
     hasNoBank := false; loanTermYears := 1 |}.

(** with every field but distance and fuel type changed, *)
Definition request_tier1_no_addons : CalculationInput :=
  {| ebucksLevel := 1; fuelType := "petrol95"; distance := 1500;
     hasInsurance := false; hasFinancing := false; hasSolar := true;
     hasNoBank := true; loanTermYears := 3 |}.

(** at two distances whose fuel spend is above the cap (3113.28 and 3891.60), *)
Definition request_1600km : CalculationInput :=
  {| ebucksLevel := 3; fuelType := "petrol95"; distance := 1600;
     hasInsurance := true; hasFinancing := true; hasSolar := false;
     hasNoBank := false; loanTermYears := 5 |}.

Definition request_2000km : CalculationInput :=
  {| ebucksLevel := 3; fuelType := "petrol95"; distance := 2000;
     hasInsurance := true; hasFinancing := true; hasSolar := false;
     hasNoBank := false; loanTermYears := 5 |}.

(** and at a hundredth of a kilometre a month. *)
Definition request_ten_metres : CalculationInput :=
  {| ebucksLevel := 3; fuelType := "petrol95"; distance := 0.01;
     hasInsurance := true; hasFinancing := true; hasSolar := false;
     hasNoBank := false; loanTermYears := 5 |}.

(** ** Further request variants *)


Definition with_loanTermYears (t : nat) (data : CalculationInput) : CalculationInput :=
  {| ebucksLevel := ebucksLevel data; fuelType := fuelType data;
     distance := distance data; hasInsurance := hasInsurance data;
     hasFinancing := hasFinancing data; hasSolar := hasSolar data;
     hasNoBank := hasNoBank data; loanTermYears := t |}.

(** A fuel type that is a key of the two fuel tables. *)
Definition known_fuelType (f : string) : Prop :=
  f = "diesel"%string \/ f = "petrol95"%string \/ f = "petrol93"%string.

(** A request for liquefied gas, which the tables do not list, at tier 9,
    which the reward tables do not list either. *)
Definition request_unlisted : CalculationInput :=
  {| ebucksLevel := 9; fuelType := "lpg"; distance := 1500;
     hasInsurance := true; hasFinancing := true; hasSolar := false;
     hasNoBank := false; loanTermYears := 5 |}.

(** A tier-2 request without add-ons at 800 km a month. *)
Definition request_tier2_800km : CalculationInput :=
  {| ebucksLevel := 2; fuelType := "diesel"; distance := 800;
     hasInsurance := false; hasFinancing := true; hasSolar := false;
     hasNoBank := false; loanTermYears := 4 |}.

(** ** Loan payments: [POST /compute-payment] *)

(** [Math.pow(x, -n)] at a negative integer exponent and a non-zero base. *)
Definition Math_pow_neg (x : R) (n : nat) : R := / (x ^ n).

(** The payment formula of the handler (and of [computeMonthlyPayment] in
    the two React components, which is the same text). *)
Definition computeMonthlyPayment
    (principal annualRate : R) (termMonths : nat) : R :=
  let monthlyRate := annualRate / 100 / 12 in
  (principal * monthlyRate) / (1 - Math_pow_neg (1 + monthlyRate) termMonths).






(** ** The calculator page: fuel comparison of [App] *)

Module App.

Inductive VehicleType : Type := hybrid | phev | ev.

(** The part of the component's state that the fuel comparison reads;
    [loanTerm] is in months. *)
Record State : Type := mkState {
  distance : R;
  fuelType : string;
  hasSolar : bool;
  loanTerm : nat;
  vehicleType : VehicleType;
  phevBatteryCapacity : R;
  phevFuelTankSize : R
}.

(** [vehicleEfficiencyData]: the [fuelConsumption] tables and the electric
    consumption per kilometre. *)
Definition ice_fuelConsumption : list (string * R) :=
  [("petrol95"%string, 9); ("petrol93"%string, 9); ("diesel"%string, 8)].
Definition hybrid_fuelConsumption : list (string * R) :=
  [("petrol95"%string, 5.4); ("petrol93"%string, 5.4); ("diesel"%string, 4.8)].
Definition ev_fuelConsumption : list (string * R) :=
  [("petrol95"%string, 0); ("petrol93"%string, 0); ("diesel"%string, 0)].
Definition phev_electricConsumption : R := 0.189.
Definition ev_electricConsumption : R := 0.189.

(** The same text as [calculateCumulativeCost] of [calculationUtils.ts]. *)
Definition calculateCumulativeCost
    (monthlyBaseCost annualInflation : R) (months : nat) : R :=
  for_sum months (fun month =>
    let inflatedMonthlyCost :=
      monthlyBaseCost * Math_pow_frac (1 + annualInflation) (INR month / 12) in
    inflatedMonthlyCost).

Section Component.

Variable st : State.

(** A table read without a default: a fuel type that the table does not
    list gives [undefined], and every number computed from it is [NaN];
    both are [None] here. *)
Definition getICEFuelConsumption : option R :=
  lookup_str ice_fuelConsumption (fuelType st).

Definition calculatePHEVFuelConsumption : option R :=
  match lookup_str ice_fuelConsumption (fuelType st) with
  | Some iceConsumption =>
      let batteryRange := phevBatteryCapacity st / phev_electricConsumption in
      let fuelRange := phevFuelTankSize st / iceConsumption * 100 in
      let totalRange := batteryRange + fuelRange in
      let electricPercentage := batteryRange / totalRange in
      let fuelPercentage := 1 - electricPercentage in
      let weightedConsumption :=
        (iceConsumption * fuelPercentage) + (0 * electricPercentage) in
      Some (Rmax weightedConsumption 1.5)
  | None => None
  end.

Definition getNEVFuelConsumption : option R :=
  match vehicleType st with
  | phev => calculatePHEVFuelConsumption
  | hybrid => lookup_str hybrid_fuelConsumption (fuelType st)
  | ev => lookup_str ev_fuelConsumption (fuelType st)
  end.

Definition getFuelPrice : R :=
  if String.eqb (fuelType st) "petrol95" then 21.62
  else if String.eqb (fuelType st) "petrol93" then 21.51
  else if String.eqb (fuelType st) "diesel" then 19.32
  else 21.62.

Definition calculateICEMonthlyFuelCost : option R :=
  match getICEFuelConsumption with
  | Some consumptionRate =>
      let fuelPrice := getFuelPrice in
      Some ((consumptionRate * distance st) / 100 * fuelPrice)
  | None => None
  end.

Definition calculateNEVMonthlyFuelCost : option R :=
  match getNEVFuelConsumption with
  | Some consumptionRate =>
      let fuelPrice := getFuelPrice in
      Some ((consumptionRate * distance st) / 100 * fuelPrice)
  | None => None
  end.

Definition calculateMonthlyChargingCost : R :=
  let standardRate := 3.7 in
  let premiumRate := 7 in
  let combinedRate := (standardRate * 0.9) + (premiumRate * 0.1) in
  let electricConsumption :=
    match vehicleType st with
    | ev => distance st * ev_electricConsumption
    | phev =>
        let batteryRange := phevBatteryCapacity st / phev_electricConsumption in
        let electricDistance := Rmin (distance st) batteryRange in
        electricDistance * phev_electricConsumption
    | hybrid => 0
    end in
  if hasSolar st
  then electricConsumption * combinedRate * 0.1
  else electricConsumption * combinedRate.

(** The sampled months and the three series of the chart. *)
Record FuelComparisonData : Type := mkFuelComparisonData {
  labels : list nat;
  fuelCosts : list (option R);
  chargingCosts : list (option R);
  cumulativeSavings : list (option R)
}.

Definition createFuelComparisonData : FuelComparisonData :=
  let monthlyFuelCost := calculateICEMonthlyFuelCost in
  let monthlyNEVCost :=
    match vehicleType st with
    | ev => Some calculateMonthlyChargingCost
    | phev => option_map (fun f => calculateMonthlyChargingCost + f)
                calculateNEVMonthlyFuelCost
    | hybrid => calculateNEVMonthlyFuelCost
    end in
  let fuelInflation := 0.075 in
  let chargingInflation := 0.1062 in
  let step :=
    if Nat.leb (loanTerm st) 24 then 2%nat
    else if Nat.leb (loanTerm st) 36 then 3%nat else 6%nat in
  (* the months that the loop does not skip *)
  let recorded :=
    filter (fun month =>
              negb (negb (Nat.eqb (month mod step) 0)
                    && negb (Nat.eqb month 1)
                    && negb (Nat.eqb month (loanTerm st))))
           (seq 1 (loanTerm st)) in
  let cumFuel month :=
    option_map (fun c => calculateCumulativeCost c fuelInflation month)
      monthlyFuelCost in
  let cumNEV month :=
    option_map
      (fun c => calculateCumulativeCost c
                  (match vehicleType st with
                   | ev | phev => chargingInflation
                   | hybrid => fuelInflation
                   end) month)
      monthlyNEVCost in
  {| labels := recorded;
     fuelCosts := map (fun month => option_map toFixed2 (cumFuel month)) recorded;
     chargingCosts := map (fun month => option_map toFixed2 (cumNEV month)) recorded;
     cumulativeSavings :=
       map (fun month =>
              match cumFuel month, cumNEV month with
              | Some f, Some n => Some (toFixed2 (f - n))
              | _, _ => None
              end) recorded |}.

Definition fuelComparisonData : FuelComparisonData := createFuelComparisonData.

(** The last recorded cumulative saving, or 0 when nothing was recorded. *)
Definition rawFuelSpendSavings : option R :=
  last (cumulativeSavings fuelComparisonData) (Some 0).

End Component.

End App.

(** The request that the page sends for its state, with the reward fields
    that the fuel comparison does not read. *)
Definition request_of_state (st : App.State) (years : nat)
    (level : Z) (insurance financing noBank : bool) : CalculationInput :=
  {| ebucksLevel := level; fuelType := App.fuelType st;
     distance := App.distance st; hasInsurance := insurance;
     hasFinancing := financing; hasSolar := App.hasSolar st;
     hasNoBank := noBank; loanTermYears := years |}.

(** The page as it loads: an EV, petrol 95, 1500 km, 60 months; and the same
    with a plug-in hybrid. *)
Definition initial_state : App.State :=
  {| App.distance := 1500; App.fuelType := "petrol95"; App.hasSolar := false;
     App.loanTerm := 60; App.vehicleType := App.ev;
     App.phevBatteryCapacity := 13.8; App.phevFuelTankSize := 45 |}.

Definition initial_state_phev : App.State :=
  {| App.distance := 1500; App.fuelType := "petrol95"; App.hasSolar := false;
     App.loanTerm := 60; App.vehicleType := App.phev;
     App.phevBatteryCapacity := 13.8; App.phevFuelTankSize := 45 |}.

(** ** Loops as sums *)

Lemma for_sum_S (n : nat) (body : nat -> R) :
  for_sum (S n) body = for_sum n body + body n.
Proof.
  unfold for_sum. rewrite seq_S, fold_left_app. reflexivity.
Qed.

Lemma for_sum_sum_first (n : nat) (body : nat -> R) :
  for_sum n body = sum_first n body.
Proof.
  induction n as [|n IH]; [reflexivity|].
  rewrite for_sum_S, IH. reflexivity.
Qed.

Lemma array_from_sum_S (n : nat) (f : nat -> R) :
  array_from_sum (S n) f = array_from_sum n f + f n.
Proof.
  unfold array_from_sum. rewrite seq_S, map_app, fold_left_app. reflexivity.
Qed.

Lemma array_from_sum_sum_first (n : nat) (f : nat -> R) :
  array_from_sum n f = sum_first n f.
Proof.
  induction n as [|n IH]; [reflexivity|].
  rewrite array_from_sum_S, IH. reflexivity.
Qed.

Lemma sum_first_ext (n : nat) (f g : nat -> R) :
  (forall i, (i < n)%nat -> f i = g i) -> sum_first n f = sum_first n g.
Proof.
  induction n as [|n IH]; intros H; [reflexivity|].
  simpl. rewrite IH, H by auto with arith. reflexivity.
Qed.

(** ** Rounding to two decimals *)

Lemma Rabs_le_between (a b : R) : Rabs a <= b -> - b <= a <= b.
Proof.
  unfold Rabs. destruct (Rcase_abs a); lra.
Qed.

Lemma Math_floor_bound (x : R) :
  IZR (Math_floor x) <= x < IZR (Math_floor x) + 1.
Proof. unfold Math_floor. apply Zfloor_bound. Qed.

Lemma Math_round_bound (x : R) :
  x - 1 / 2 < Math_round x <= x + 1 / 2.
Proof.
  unfold Math_round. pose proof (Math_floor_bound (x + 1 / 2)). lra.
Qed.

Lemma Math_round_is_round2 (x : R) : is_round2 (Math_round (x * 100) / 100) x.
Proof.
  exists (Math_floor (x * 100 + 1 / 2)). split; [reflexivity|].
  pose proof (Math_round_bound (x * 100)) as H.
  apply Rabs_le. lra.
Qed.

Lemma toFixed2_is_round2 (x : R) : is_round2 (toFixed2 x) x.
Proof.
  unfold toFixed2. destruct (Rlt_dec x 0) as [Hneg|Hpos].
  - exists (- Math_floor (- x * 100 + 1 / 2))%Z. split.
    + rewrite opp_IZR. lra.
    + pose proof (Math_floor_bound (- x * 100 + 1 / 2)). apply Rabs_le. lra.
  - exists (Math_floor (x * 100 + 1 / 2)). split; [reflexivity|].
    pose proof (Math_floor_bound (x * 100 + 1 / 2)). apply Rabs_le. lra.
Qed.

Lemma is_round2_exact (k : Z) : is_round2 (IZR k / 100) (IZR k / 100).
Proof.
  exists k. split; [reflexivity|]. apply Rabs_le. lra.
Qed.

(** Three values rounded to hundredths, the third being the rounding of the
    sum of what the first two round: the rounded values add up to within one
    hundredth. *)
Lemma round2_sum (A B C x y : R) :
  is_round2 A x -> is_round2 B y -> is_round2 C (x + y) ->
  Rabs (C - (A + B)) <= 0.01.
Proof.
  intros (a & -> & Ha) (b & -> & Hb) (c & -> & Hc).
  apply Rabs_le_between in Ha, Hb, Hc.
  assert (Hz : IZR (c - a - b) = IZR c - IZR a - IZR b)
    by (rewrite !minus_IZR; reflexivity).
  assert (Hlo : (-2 < c - a - b)%Z) by (apply lt_IZR; rewrite Hz; lra).
  assert (Hhi : (c - a - b < 2)%Z) by (apply lt_IZR; rewrite Hz; lra).
  assert (H1 : (-1 <= c - a - b)%Z) by lia.
  assert (H2 : (c - a - b <= 1)%Z) by lia.
  apply IZR_le in H1, H2. rewrite Hz in H1, H2.
  apply Rabs_le. lra.
Qed.

Lemma Math_floor_half : Math_floor (0 * 100 + 1 / 2) = 0%Z.
Proof.
  unfold Math_floor. apply Zfloor_eq. lra.
Qed.

Lemma Math_round2_zero : Math_round (0 * 100) / 100 = 0.
Proof.
  unfold Math_round. rewrite Math_floor_half. lra.
Qed.

Lemma toFixed2_zero : toFixed2 0 = 0.
Proof.
  unfold toFixed2. destruct (Rlt_dec 0 0) as [H|_]; [lra|].
  rewrite Math_floor_half. lra.
Qed.

Lemma presentValueOfGrowingAnnuity_zero (g d : R) (n : nat) :
  presentValueOfGrowingAnnuity 0 g d n = 0.
Proof.
  unfold presentValueOfGrowingAnnuity.
  destruct (Rlt_dec _ _); unfold Rdiv; rewrite !Rmult_0_l; reflexivity.
Qed.

(** ** Aggregation *)

(** C2. In the result of either implementation the rounded fields add up to
    within one hundredth: [upfrontSavings] against
    [presentValueEbucks + carbonTaxSavings], and [totalSavings] against
    [upfrontSavings + fuelSpendSavings]. *)
Theorem C2_breakdown_adds_up (data : CalculationInput) :
  (let r := Server.calculate data in
   Rabs (upfrontSavings r - (presentValueEbucks r + carbonTaxSavings r)) <= 0.01
   /\ Rabs (totalSavings r - (upfrontSavings r + fuelSpendSavings r)) <= 0.01)
  /\
  (let r := Client.calculateSavings data in
   Rabs (upfrontSavings r - (presentValueEbucks r + carbonTaxSavings r)) <= 0.01
   /\ Rabs (totalSavings r - (upfrontSavings r + fuelSpendSavings r)) <= 0.01).
Proof.
  cbv zeta. split; split; simpl.
  - apply round2_sum with (x := Server.pvEbucks data) (y := Server.carbonTaxSavings data);
      apply Math_round_is_round2.
  - apply round2_sum
      with (x := Server.upfrontSavings data) (y := Server.loanTermSavings data);
      apply Math_round_is_round2.
  - apply round2_sum with (x := Client.pvEbucks data) (y := Client.carbonTaxSavings data);
      apply toFixed2_is_round2.
  - apply round2_sum
      with (x := Client.upfrontSavings data) (y := Client.rawFuelSpendSavings data).
    + apply toFixed2_is_round2.
    + unfold Client.rawFuelSpendSavings.
      destruct (toFixed2_is_round2 (Client.cumFuel data - Client.cumCharge data))
        as (k & -> & _).
      apply is_round2_exact.
    + apply toFixed2_is_round2.
Qed.

(** ** No bank affiliation *)

(** C3. With [hasNoBank] set, whatever the other fields are, the returned
    reward present value and the returned carbon-tax savings are zero, in the
    server's handler and in the client's [calculateSavings]. *)
Theorem C3_no_bank_zeroes_rewards_and_carbon_tax (data : CalculationInput) :
  hasNoBank data = true ->
  (presentValueEbucks (Server.calculate data) = 0
   /\ carbonTaxSavings (Server.calculate data) = 0)
  /\
  (presentValueEbucks (Client.calculateSavings data) = 0
   /\ carbonTaxSavings (Client.calculateSavings data) = 0).
Proof.
  intros Hnb. simpl.
  unfold Server.pvEbucks, Server.year1Ebucks, Server.totalRate, Server.baseRate,
    Server.insuranceRate, Server.financingRate, Server.carbonTaxSavings,
    Client.pvEbucks, Client.year1Ebucks, Client.totalRate, Client.baseRate,
    Client.insuranceRate, Client.financingRate, Client.carbonTaxSavings.
  rewrite Hnb. simpl negb. cbv iota.
  replace ((0 + 0 + 0) * Server.qualifyingLitres data * 12) with 0 by ring.
  replace ((0 + 0 + 0) * Client.qualifyingLitres data * 12) with 0 by ring.
  rewrite !presentValueOfGrowingAnnuity_zero.
  rewrite Math_round2_zero, toFixed2_zero. auto.
Qed.

Lemma C3_witness :
  hasNoBank example_no_bank = true
  /\ presentValueEbucks (Server.calculate example_no_bank) = 0
  /\ carbonTaxSavings (Client.calculateSavings example_no_bank) = 0.
Proof.
  pose proof (C3_no_bank_zeroes_rewards_and_carbon_tax example_no_bank eq_refl)
    as [[Hs _] [_ Hc]].
  split; [reflexivity|]. split; assumption.
Defined.

(** ** The growing annuity *)

Lemma closed_form_sum_first (cf g d : R) (n : nat) :
  g - d <> 0 -> 1 + d <> 0 ->
  cf * (((1 + g) ^ n - (1 + d) ^ n) / (g - d)) / (1 + d) ^ n
  = sum_first n (fun i => cf * (1 + g) ^ i / (1 + d) ^ (i + 1)).
Proof.
  intros Hgd Hd.
  induction n as [|n IH].
  - simpl. field. assumption.
  - cbn [sum_first]. rewrite <- IH.
    replace (n + 1)%nat with (S n) by lia.
    cbn [pow].
    assert (HB : (1 + d) ^ n <> 0) by (apply pow_nonzero; assumption).
    set (A := (1 + g) ^ n) in *. set (B := (1 + d) ^ n) in *.
    field. repeat split; assumption.
Qed.

Lemma far_apart_nonzero (g d : R) : ~ Rabs (g - d) < 1e-9 -> g - d <> 0.
Proof.
  intros H E. apply H. rewrite E, Rabs_R0. lra.
Qed.

Lemma closed_form_equals_loop (cf g d : R) (n : nat) :
  ~ Rabs (g - d) < 1e-9 -> 1 + d <> 0 ->
  presentValueOfGrowingAnnuity cf g d n = spec_escalatedStreamPV cf g d n.
Proof.
  intros Hfar Hd.
  unfold presentValueOfGrowingAnnuity, spec_escalatedStreamPV, Math_pow.
  destruct (Rlt_dec (Rabs (g - d)) 1e-9) as [Hnear|_]; [contradiction|].
  apply closed_form_sum_first; [apply far_apart_nonzero|]; assumption.
Qed.

(** C6. Outside the degenerate branch, that is when the two rates are at
    least [1e-9] apart, and with a discount factor [1 + d] that can be
    divided by, the closed form [presentValueOfGrowingAnnuity] equals the
    explicit loop: escalate each year's cash flow, discount it, sum. *)
Theorem C6_closed_form_equals_explicit_loop (cf g d : R) (n : nat) :
  ~ Rabs (g - d) < 1e-9 -> 1 + d <> 0 ->
  presentValueOfGrowingAnnuity cf g d n = spec_escalatedStreamPV cf g d n.
Proof.
  exact (closed_form_equals_loop cf g d n).
Qed.

Lemma C6_witness :
  presentValueOfGrowingAnnuity 100 0.09 0.1095 5
  = spec_escalatedStreamPV 100 0.09 0.1095 5.
Proof.
  apply (C6_closed_form_equals_explicit_loop 100 0.09 0.1095 5).
  - intros H. apply Rabs_def2 in H. lra.
  - lra.
Defined.

(** C6, for all distinct rates, does not hold: rates that differ by less
    than [1e-9] take the degenerate branch, whose value is not the loop sum. *)
Lemma C6_counterexample :
  5e-10 <> 0 /\ (0 < 2)%nat
  /\ presentValueOfGrowingAnnuity 1 5e-10 0 2 <> spec_escalatedStreamPV 1 5e-10 0 2.
Proof.
  split; [lra|]. split; [lia|].
  unfold presentValueOfGrowingAnnuity, spec_escalatedStreamPV, Math_pow.
  destruct (Rlt_dec (Rabs (5e-10 - 0)) 1e-9) as [_|Hfar].
  - simpl. lra.
  - exfalso. apply Hfar. apply Rabs_def1; lra.
Qed.

(** At equal rates the degenerate branch divides by [(1+d)^n] where the loop
    sum has [n] terms [cf / (1+d)]: with both rates at 100% and two periods
    the function gives 1/2 and the loop 1. *)
Remark degenerate_branch_is_not_the_loop_sum :
  presentValueOfGrowingAnnuity 1 1 1 2 = 1 / 2
  /\ spec_escalatedStreamPV 1 1 1 2 = 1.
Proof.
  unfold presentValueOfGrowingAnnuity, spec_escalatedStreamPV, Math_pow.
  destruct (Rlt_dec (Rabs (1 - 1)) 1e-9) as [_|Hfar].
  - simpl. lra.
  - exfalso. apply Hfar. apply Rabs_def1; lra.
Qed.

(** The loop of the handler that accumulates [pvFuelCost] is that sum. *)
Lemma escalation_loop_sum_first (cf g d : R) (n : nat) :
  for_sum n (fun i =>
    let costYear := cf * Math_pow (1 + g) i in presentValue costYear d (i + 1))
  = spec_escalatedStreamPV cf g d n.
Proof.
  rewrite for_sum_sum_first. reflexivity.
Qed.

(** C7. [presentValueOfGrowingAnnuity] returns
    [cashFlow * periods / (1 + discountRate)^periods] when the rates are
    less than [1e-9] apart, and otherwise
    [cashFlow * ((1+growthRate)^periods - (1+discountRate)^periods)
     / (growthRate - discountRate) / (1+discountRate)^periods]. *)
Theorem C7_growing_annuity_two_branches (cf g d : R) (n : nat) :
  (Rabs (g - d) < 1e-9 ->
   presentValueOfGrowingAnnuity cf g d n = cf * INR n / (1 + d) ^ n)
  /\
  (~ Rabs (g - d) < 1e-9 ->
   presentValueOfGrowingAnnuity cf g d n
   = cf * ((1 + g) ^ n - (1 + d) ^ n) / (g - d) / (1 + d) ^ n).
Proof.
  unfold presentValueOfGrowingAnnuity, Math_pow.
  destruct (Rlt_dec (Rabs (g - d)) 1e-9) as [Hnear|Hfar]; split; intros H;
    try contradiction; try reflexivity.
  unfold Rdiv. ring.
Qed.

Lemma C7_witness :
  presentValueOfGrowingAnnuity 100 0.1095 0.1095 5
  = 100 * INR 5 / (1 + 0.1095) ^ 5
  /\ presentValueOfGrowingAnnuity 100 0.09 0.1095 5
     = 100 * ((1 + 0.09) ^ 5 - (1 + 0.1095) ^ 5) / (0.09 - 0.1095)
       / (1 + 0.1095) ^ 5.
Proof.
  split.
  - apply (proj1 (C7_growing_annuity_two_branches 100 0.1095 0.1095 5)).
    apply Rabs_def1; lra.
  - apply (proj2 (C7_growing_annuity_two_branches 100 0.09 0.1095 5)).
    intros H. apply Rabs_def2 in H. lra.
Defined.

(** ** Reward cap *)

Lemma or_else_Some (v dflt : R) : v <> 0 -> or_else (Some v) dflt = v.
Proof.
  intros Hv. unfold or_else. destruct (Req_dec_T v 0); [contradiction|reflexivity].
Qed.

Lemma client_server_monthlyFuelSpend (data : CalculationInput) :
  Client.monthlyFuelSpend data = Server.monthlyFuelSpend data.
Proof. reflexivity. Qed.

Lemma petrol95_monthlyFuelSpend (data : CalculationInput) :
  fuelType data = "petrol95"%string ->
  Server.monthlyFuelSpend data = 9 * distance data / 100 * 21.62.
Proof.
  intros Hf.
  unfold Server.monthlyFuelSpend, Server.monthlyLitres, Server.consumptionRate,
    Server.fuelPrice, Server.distanceMonthly.
  rewrite Hf. cbn [lookup_str FUEL_CONSUMPTION FUEL_PRICES].
  change (String.eqb "petrol95" "diesel") with false.
  change (String.eqb "petrol95" "petrol95") with true.
  cbv iota. rewrite !or_else_Some by lra. reflexivity.
Qed.

(** C8. When the monthly fuel spend reaches the cap of 3000, the litres that
    earn rewards are [3000 / fuelPrice]; so two requests that differ only in
    distance, both at or above the cap, get the same reward present value. *)
Theorem C8_reward_capped_at_monthly_ceiling (d1 d2 : CalculationInput) :
  MONTHLY_FUEL_SPEND_CAP <= Server.monthlyFuelSpend d1 ->
  (Server.qualifyingLitres d1 = 3000 / Server.fuelPrice d1
   /\ Client.qualifyingLitres d1 = 3000 / Client.fuelPrice d1)
  /\ (MONTHLY_FUEL_SPEND_CAP <= Server.monthlyFuelSpend d2 ->
      differ_only_in_distance d1 d2 ->
      presentValueEbucks (Server.calculate d1)
      = presentValueEbucks (Server.calculate d2)
      /\ presentValueEbucks (Client.calculateSavings d1)
         = presentValueEbucks (Client.calculateSavings d2)).
Proof.
  intros H1.
  assert (Q1 : Server.qualifyingLitres d1 = 3000 / Server.fuelPrice d1).
  { unfold Server.qualifyingLitres, Server.effectiveFuelSpend.
    rewrite Rmin_right by assumption. reflexivity. }
  split; [split; exact Q1|].
  intros H2 (Hl & Hf & Hi & Hfi & _ & Hnb & _).
  assert (Q2 : Server.qualifyingLitres d2 = 3000 / Server.fuelPrice d2).
  { unfold Server.qualifyingLitres, Server.effectiveFuelSpend.
    rewrite Rmin_right by assumption. reflexivity. }
  assert (P : Server.fuelPrice d1 = Server.fuelPrice d2)
    by (unfold Server.fuelPrice; rewrite Hf; reflexivity).
  assert (T : Server.totalRate d1 = Server.totalRate d2).
  { unfold Server.totalRate, Server.baseRate, Server.insuranceRate,
      Server.financingRate, Server.level.
    rewrite Hl, Hi, Hfi, Hnb. reflexivity. }
  assert (Y : Server.year1Ebucks d1 = Server.year1Ebucks d2).
  { unfold Server.year1Ebucks. rewrite Q1, Q2, P, T. reflexivity. }
  split.
  - cbn [presentValueEbucks Server.calculate]. unfold Server.pvEbucks.
    rewrite Y. reflexivity.
  - cbn [presentValueEbucks Client.calculateSavings]. unfold Client.pvEbucks.
    change (Client.year1Ebucks d1) with (Server.year1Ebucks d1).
    change (Client.year1Ebucks d2) with (Server.year1Ebucks d2).
    rewrite Y. reflexivity.
Qed.

Lemma C8_witness :
  Server.qualifyingLitres request_1600km = 3000 / Server.fuelPrice request_1600km
  /\ presentValueEbucks (Server.calculate request_1600km)
     = presentValueEbucks (Server.calculate request_2000km).
Proof.
  assert (H1 : MONTHLY_FUEL_SPEND_CAP <= Server.monthlyFuelSpend request_1600km).
  { rewrite petrol95_monthlyFuelSpend by reflexivity.
    unfold MONTHLY_FUEL_SPEND_CAP. simpl. lra. }
  assert (H2 : MONTHLY_FUEL_SPEND_CAP <= Server.monthlyFuelSpend request_2000km).
  { rewrite petrol95_monthlyFuelSpend by reflexivity.
    unfold MONTHLY_FUEL_SPEND_CAP. simpl. lra. }
  assert (Hd : differ_only_in_distance request_1600km request_2000km).
  { repeat split. }
  pose proof (C8_reward_capped_at_monthly_ceiling
                request_1600km request_2000km H1) as [[Hq _] Hsame].
  destruct (Hsame H2 Hd) as [Hs _].
  split; assumption.
Defined.

(** ** EV emissions with and without solar *)

Lemma toFixed2_nonneg (x : R) : 0 <= x -> toFixed2 x = Math_round (x * 100) / 100.
Proof.
  intros Hx. unfold toFixed2, Math_round.
  destruct (Rlt_dec x 0); [lra|reflexivity].
Qed.

Lemma round2_zero_below_half_cent (x : R) :
  0 <= x < 1 / 200 -> Math_round (x * 100) / 100 = 0.
Proof.
  intros Hx. unfold Math_round, Math_floor.
  rewrite (Zfloor_eq 0 (x * 100 + 1 / 2)) by lra. lra.
Qed.

Lemma round2_pos_from_half_cent (x : R) :
  1 / 200 <= x -> 0 < Math_round (x * 100) / 100.
Proof.
  intros Hx. unfold Math_round, Math_floor.
  assert (H : (1 <= Zfloor (x * 100 + 1 / 2))%Z) by (apply Zfloor_lub; lra).
  apply IZR_le in H. lra.
Qed.

Lemma round2_le (x y : R) :
  x <= y -> Math_round (x * 100) / 100 <= Math_round (y * 100) / 100.
Proof.
  intros Hxy. unfold Math_round, Math_floor.
  assert (H : (Zfloor (x * 100 + 1 / 2) <= Zfloor (y * 100 + 1 / 2))%Z)
    by (apply Zfloor_le; lra).
  apply IZR_le in H. lra.
Qed.

Lemma round2_lt_one_cent_apart (x y : R) :
  x + 1 / 100 <= y -> Math_round (x * 100) / 100 < Math_round (y * 100) / 100.
Proof.
  intros Hxy. unfold Math_round, Math_floor.
  pose proof (Zfloor_bound (x * 100 + 1 / 2)).
  pose proof (Zfloor_bound (y * 100 + 1 / 2)).
  assert (H1 : (Zfloor (x * 100 + 1 / 2) < Zfloor (y * 100 + 1 / 2) + 1)%Z).
  { apply lt_IZR. rewrite plus_IZR. lra. }
  assert (H2 : (Zfloor (x * 100 + 1 / 2) + 1 <= Zfloor (y * 100 + 1 / 2))%Z).
  { apply Zfloor_lub. rewrite plus_IZR. lra. }
  apply IZR_le in H2. rewrite plus_IZR in H2. lra.
Qed.

Lemma evMonthlyEmissions_solar (data : CalculationInput) :
  Server.evMonthlyEmissions (with_solar true data) = distance data * 0.01701.
Proof.
  unfold Server.evMonthlyEmissions, Server.distanceMonthly, EV_CONSUMPTION, CO2_SOLAR.
  cbn [hasSolar distance with_solar]. lra.
Qed.

Lemma evMonthlyEmissions_grid (data : CalculationInput) :
  Server.evMonthlyEmissions (with_solar false data) = distance data * 0.1701.
Proof.
  unfold Server.evMonthlyEmissions, Server.distanceMonthly, EV_CONSUMPTION, CO2_GRID.
  cbn [hasSolar distance with_solar]. lra.
Qed.

Lemma client_server_evMonthlyEmissions (data : CalculationInput) :
  Client.evMonthlyEmissions data = Server.evMonthlyEmissions data.
Proof. reflexivity. Qed.

(** C9 does not hold of the returned, rounded field at every positive
    distance: at 0.01 km the solar emissions round to zero, and so do the
    grid ones. *)
Lemma C9_counterexample :
  0 < distance request_ten_metres
  /\ ev (co2Emissions (Server.calculate (with_solar true request_ten_metres))) = 0
  /\ ev (co2Emissions (Server.calculate (with_solar false request_ten_metres))) = 0.
Proof.
  cbn [ev co2Emissions Server.calculate].
  rewrite evMonthlyEmissions_solar, evMonthlyEmissions_grid.
  cbn [distance request_ten_metres].
  split; [lra|].
  split; apply round2_zero_below_half_cent; lra.
Qed.

(** C9. For a positive distance the EV emissions before
    rounding are strictly smaller with solar than without, and strictly
    positive; the returned two-decimal values are ordered the same way but
    not strictly in general.  From a distance of [500/1701] km on (where the
    solar emissions reach half a hundredth) the returned solar value is
    strictly positive and strictly below the returned grid value; below that
    distance the returned solar value is zero. *)
Theorem C9_solar_emissions_below_grid_above_zero (data : CalculationInput) :
  0 < distance data ->
  let solar := with_solar true data in
  let grid := with_solar false data in
  (0 < Server.evMonthlyEmissions solar < Server.evMonthlyEmissions grid
   /\ 0 < Client.evMonthlyEmissions solar < Client.evMonthlyEmissions grid)
  /\ (0 <= ev (co2Emissions (Server.calculate solar))
           <= ev (co2Emissions (Server.calculate grid))
      /\ 0 <= ev (co2Emissions (Client.calculateSavings solar))
              <= ev (co2Emissions (Client.calculateSavings grid)))
  /\ (500 / 1701 <= distance data ->
      0 < ev (co2Emissions (Server.calculate solar))
        < ev (co2Emissions (Server.calculate grid))
      /\ 0 < ev (co2Emissions (Client.calculateSavings solar))
           < ev (co2Emissions (Client.calculateSavings grid)))
  /\ (distance data < 500 / 1701 ->
      ev (co2Emissions (Server.calculate solar)) = 0
      /\ ev (co2Emissions (Client.calculateSavings solar)) = 0).
Proof.
  intros Hd solar grid. subst solar grid.
  cbn [ev co2Emissions Server.calculate Client.calculateSavings].
  change Client.evMonthlyEmissions with Server.evMonthlyEmissions.
  rewrite !evMonthlyEmissions_solar, !evMonthlyEmissions_grid.
  rewrite !toFixed2_nonneg by lra.
  pose proof (round2_le 0 (distance data * 0.01701)) as Hz.
  rewrite Math_round2_zero in Hz.
  pose proof (round2_le (distance data * 0.01701) (distance data * 0.1701)) as Hle.
  repeat split; try lra.
  - apply round2_pos_from_half_cent. lra.
  - apply round2_lt_one_cent_apart. lra.
  - apply round2_pos_from_half_cent. lra.
  - apply round2_lt_one_cent_apart. lra.
  - apply round2_zero_below_half_cent. lra.
  - apply round2_zero_below_half_cent. lra.
Qed.

Lemma C9_witness :
  0 < distance example_request
  /\ 0 < ev (co2Emissions (Server.calculate (with_solar true example_request)))
       < ev (co2Emissions (Server.calculate (with_solar false example_request))).
Proof.
  assert (Hd : 0 < distance example_request) by (simpl; lra).
  split; [exact Hd|].
  pose proof (C9_solar_emissions_below_grid_above_zero example_request Hd)
    as (_ & _ & Hstrict & _).
  apply Hstrict. simpl. lra.
Defined.

(** ** Frame properties of the request fields *)

(** C10. Two requests that differ only in [hasNoBank] get the same
    [fuelSpendSavings], the same [standardUpfrontBenefits] and the same four
    [co2Emissions] fields, from the server and from the client. *)
Theorem C10_no_bank_flag_frame (d1 d2 : CalculationInput) :
  differ_only_in_hasNoBank d1 d2 ->
  (fuelSpendSavings (Server.calculate d1) = fuelSpendSavings (Server.calculate d2)
   /\ standardUpfrontBenefits (Server.calculate d1)
      = standardUpfrontBenefits (Server.calculate d2)
   /\ co2Emissions (Server.calculate d1) = co2Emissions (Server.calculate d2))
  /\
  (fuelSpendSavings (Client.calculateSavings d1)
   = fuelSpendSavings (Client.calculateSavings d2)
   /\ standardUpfrontBenefits (Client.calculateSavings d1)
      = standardUpfrontBenefits (Client.calculateSavings d2)
   /\ co2Emissions (Client.calculateSavings d1)
      = co2Emissions (Client.calculateSavings d2)).
Proof.
  destruct d1 as [l1 f1 x1 i1 fi1 s1 nb1 t1], d2 as [l2 f2 x2 i2 fi2 s2 nb2 t2].
  unfold differ_only_in_hasNoBank. cbn [ebucksLevel fuelType distance hasInsurance
    hasFinancing hasSolar loanTermYears].
  intros (-> & -> & -> & -> & -> & -> & ->).
  repeat split; reflexivity.
Qed.

Lemma C10_witness :
  fuelSpendSavings (Server.calculate example_request)
  = fuelSpendSavings (Server.calculate example_no_bank)
  /\ co2Emissions (Client.calculateSavings example_request)
     = co2Emissions (Client.calculateSavings example_no_bank).
Proof.
  assert (Hd : differ_only_in_hasNoBank example_request example_no_bank)
    by (repeat split).
  pose proof (C10_no_bank_flag_frame _ _ Hd) as [[Hs _] [_ [_ Hc]]].
  split; assumption.
Defined.

(** ** Standard reference benefits *)

Lemma toFixed2_round2 (x : R) :
  toFixed2 (Math_round (x * 100) / 100) = Math_round (x * 100) / 100.
Proof.
  unfold Math_round. set (k := Math_floor (x * 100 + 1 / 2)).
  unfold toFixed2, Math_floor.
  destruct (Rlt_dec (IZR k / 100) 0) as [Hneg|Hpos].
  - rewrite (Zfloor_eq (- k) (- (IZR k / 100) * 100 + 1 / 2)).
    + rewrite opp_IZR. lra.
    + rewrite opp_IZR. lra.
  - rewrite (Zfloor_eq k (IZR k / 100 * 100 + 1 / 2)) by lra. reflexivity.
Qed.

Lemma client_standard_is_tier4 (data : CalculationInput) :
  standardUpfrontBenefits (Client.calculateSavings data)
  = Client.calculateStandardUpfrontBenefits (distance data) (fuelType data) 4.
Proof.
  cbn [standardUpfrontBenefits Client.calculateSavings].
  unfold Client.standardUpfrontBenefits, Client.distanceMonthly,
    Client.calculateStandardUpfrontBenefits.
  cbn [std_presentValueEbucks std_carbonTaxSavings std_upfrontSavings].
  rewrite !toFixed2_round2. reflexivity.
Qed.

(** C5. The [standardUpfrontBenefits] of the result depend on the distance
    and the fuel type only: two requests that agree on these get the same
    ones, whatever their tier, add-ons, bank flag and loan term.  They are the
    figures of the fixed reference scenario: on the server, field by field
    what the handler returns for tier 4 with both add-ons, bank affiliated,
    over five years; on the client, [calculateStandardUpfrontBenefits] at
    tier 4. *)
Theorem C5_standard_benefits_fixed_scenario (d1 d2 : CalculationInput) :
  distance d1 = distance d2 -> fuelType d1 = fuelType d2 ->
  (standardUpfrontBenefits (Server.calculate d1)
   = standardUpfrontBenefits (Server.calculate d2)
   /\ standardUpfrontBenefits (Client.calculateSavings d1)
      = standardUpfrontBenefits (Client.calculateSavings d2))
  /\ standardUpfrontBenefits (Server.calculate d1)
     = (let r := Server.calculate (reference_scenario d1) in
        {| std_presentValueEbucks := presentValueEbucks r;
           std_carbonTaxSavings := carbonTaxSavings r;
           std_upfrontSavings := upfrontSavings r |})
  /\ standardUpfrontBenefits (Client.calculateSavings d1)
     = Client.calculateStandardUpfrontBenefits (distance d1) (fuelType d1) 4.
Proof.
  intros Hx Hf. split; [split|split].
  - cbn [standardUpfrontBenefits Server.calculate].
    unfold Server.standardUpfrontBenefits, Server.distanceMonthly.
    rewrite Hx, Hf. reflexivity.
  - rewrite !client_standard_is_tier4, Hx, Hf. reflexivity.
  - reflexivity.
  - apply client_standard_is_tier4.
Qed.

Lemma C5_witness :
  standardUpfrontBenefits (Server.calculate example_request)
  = standardUpfrontBenefits (Server.calculate request_tier1_no_addons)
  /\ standardUpfrontBenefits (Client.calculateSavings example_request)
     = standardUpfrontBenefits (Client.calculateSavings request_tier1_no_addons).
Proof.
  exact (proj1 (C5_standard_benefits_fixed_scenario
                  example_request request_tier1_no_addons eq_refl eq_refl)).
Defined.

(** ** Upfront benefits over five fixed years *)

Lemma max_key_CARBON_TAX : max_key CARBON_TAX = 2032%Z.
Proof. reflexivity. Qed.

Lemma carbonTaxRate_first_five (i : nat) :
  (i < 5)%nat ->
  carbonTaxRate (2025 + Z.of_nat i) = nth i [236; 308; 347; 390; 440] 0.
Proof.
  intros Hi. unfold carbonTaxRate.
  do 5 (destruct i as [|i]; [cbn; apply or_else_Some; lra|]).
  lia.
Qed.

(** Forward fill: a year after the table's last one gets the last rate. *)
Lemma carbonTaxRate_forward_fill (year : Z) :
  (2032 < year)%Z -> carbonTaxRate year = 495.
Proof.
  intros Hy. unfold carbonTaxRate. rewrite max_key_CARBON_TAX.
  cbn [lookup_Z CARBON_TAX].
  repeat match goal with
         | |- context [Z.eqb year ?k] =>
             destruct (Z.eqb_spec year k) as [E|_]; [lia|]
         end.
  reflexivity.
Qed.

Lemma carbon_loop_spec (tonnes : R) :
  for_sum 5 (fun i =>
    let year := (2025 + Z.of_nat i)%Z in
    let rate := carbonTaxRate year in
    let annualCarbonCost := tonnes * rate in
    presentValue annualCarbonCost DISCOUNT_RATE (i + 1))
  = spec_carbonTaxPV tonnes.
Proof.
  rewrite for_sum_sum_first. unfold spec_carbonTaxPV.
  apply sum_first_ext. intros i Hi. cbv zeta.
  rewrite carbonTaxRate_first_five by assumption. reflexivity.
Qed.

Lemma rates_far_apart_server :
  ~ Rabs (Server.FUEL_INFLATION - DISCOUNT_RATE) < 1e-9.
Proof.
  unfold Server.FUEL_INFLATION, DISCOUNT_RATE. intros H.
  apply Rabs_def2 in H. lra.
Qed.

Lemma rates_far_apart_client :
  ~ Rabs (Client.FUEL_INFLATION - DISCOUNT_RATE) < 1e-9.
Proof.
  unfold Client.FUEL_INFLATION, DISCOUNT_RATE. intros H.
  apply Rabs_def2 in H. lra.
Qed.

Lemma discount_factor_nonzero : 1 + DISCOUNT_RATE <> 0.
Proof. unfold DISCOUNT_RATE. lra. Qed.

Lemma server_pvEbucks_five_years (data : CalculationInput) :
  Server.pvEbucks data
  = spec_escalatedStreamPV (Server.year1Ebucks data) 0.09 0.1095 5.
Proof.
  unfold Server.pvEbucks.
  rewrite closed_form_equals_loop
    by (apply rates_far_apart_server || apply discount_factor_nonzero).
  reflexivity.
Qed.

Lemma client_pvEbucks_five_years (data : CalculationInput) :
  Client.pvEbucks data
  = spec_escalatedStreamPV (Client.year1Ebucks data) 0.075 0.1095 5.
Proof.
  unfold Client.pvEbucks.
  rewrite closed_form_equals_loop
    by (apply rates_far_apart_client || apply discount_factor_nonzero).
  reflexivity.
Qed.

Lemma server_carbonTax_five_years (data : CalculationInput) :
  Server.carbonTaxSavings data
  = if hasNoBank data then 0
    else spec_carbonTaxPV (Server.monthlyLitres data * 12 * 2.35 / 1000).
Proof.
  unfold Server.carbonTaxSavings. destruct (hasNoBank data); cbn [negb]; [reflexivity|].
  cbv zeta. apply carbon_loop_spec.
Qed.

Lemma client_carbonTax_five_years (data : CalculationInput) :
  Client.carbonTaxSavings data
  = if hasNoBank data then 0
    else spec_carbonTaxPV (Client.monthlyLitres data * 12 * 2.35 / 1000).
Proof.
  unfold Client.carbonTaxSavings. destruct (hasNoBank data); cbn [negb]; [reflexivity|].
  cbv zeta. apply carbon_loop_spec.
Qed.

(** C4. The reward present value is the growing annuity over exactly five
    periods, and the carbon-tax savings are the sum over the five years 2025
    to 2029 (zero without bank affiliation), in both implementations; so two
    requests that differ only in [loanTermYears] get the same returned
    [presentValueEbucks] and [carbonTaxSavings]. *)
Theorem C4_upfront_benefits_ignore_loan_term (d1 d2 : CalculationInput) :
  differ_only_in_loanTermYears d1 d2 ->
  (Server.pvEbucks d1
   = spec_escalatedStreamPV (Server.year1Ebucks d1) 0.09 0.1095 5
   /\ Client.pvEbucks d1
      = spec_escalatedStreamPV (Client.year1Ebucks d1) 0.075 0.1095 5)
  /\ (Server.carbonTaxSavings d1
      = (if hasNoBank d1 then 0
         else spec_carbonTaxPV (Server.monthlyLitres d1 * 12 * 2.35 / 1000))
      /\ Client.carbonTaxSavings d1
         = (if hasNoBank d1 then 0
            else spec_carbonTaxPV (Client.monthlyLitres d1 * 12 * 2.35 / 1000)))
  /\ (presentValueEbucks (Server.calculate d1)
      = presentValueEbucks (Server.calculate d2)
      /\ carbonTaxSavings (Server.calculate d1)
         = carbonTaxSavings (Server.calculate d2))
  /\ (presentValueEbucks (Client.calculateSavings d1)
      = presentValueEbucks (Client.calculateSavings d2)
      /\ carbonTaxSavings (Client.calculateSavings d1)
         = carbonTaxSavings (Client.calculateSavings d2)).
Proof.
  intros Hd.
  split; [split; [apply server_pvEbucks_five_years
                 | apply client_pvEbucks_five_years]|].
  split; [split; [apply server_carbonTax_five_years
                 | apply client_carbonTax_five_years]|].
  destruct d1 as [l1 f1 x1 i1 fi1 s1 nb1 t1], d2 as [l2 f2 x2 i2 fi2 s2 nb2 t2].
  unfold differ_only_in_loanTermYears in Hd.
  cbn [ebucksLevel fuelType distance hasInsurance hasFinancing hasSolar hasNoBank]
    in Hd.
  destruct Hd as (-> & -> & -> & -> & -> & -> & ->).
  repeat split; reflexivity.
Qed.

Lemma C4_witness :
  presentValueEbucks (Server.calculate example_request)
  = presentValueEbucks (Server.calculate request_seven_years)
  /\ carbonTaxSavings (Client.calculateSavings example_request)
     = carbonTaxSavings (Client.calculateSavings request_seven_years).
Proof.
  assert (Hd : differ_only_in_loanTermYears example_request request_seven_years)
    by (repeat split).
  pose proof (C4_upfront_benefits_ignore_loan_term _ _ Hd)
    as (_ & _ & [Hs _] & [_ Hc]).
  split; assumption.
Defined.

(** ** Fuel spend savings *)

Lemma termYears_spec (data : CalculationInput) :
  Server.loanTermYears data = spec_termYears data.
Proof.
  unfold Server.loanTermYears, spec_termYears, DEFAULT_YEARS.
  destruct (loanTermYears data); reflexivity.
Qed.

Lemma monthlyFuelSpend_spec (data : CalculationInput) :
  Server.monthlyFuelSpend data = spec_monthlyFuelSpend data.
Proof.
  unfold Server.monthlyFuelSpend, Server.monthlyLitres, Server.consumptionRate,
    Server.fuelPrice, Server.distanceMonthly, spec_monthlyFuelSpend.
  unfold Rdiv. ring.
Qed.

Lemma server_pvFuelCost_spec (data : CalculationInput) :
  Server.pvFuelCost data
  = spec_escalatedStreamPV (spec_monthlyFuelSpend data * 12) Server.FUEL_INFLATION
      DISCOUNT_RATE (spec_termYears data).
Proof.
  unfold Server.pvFuelCost, Server.year1FuelCost.
  rewrite escalation_loop_sum_first, termYears_spec, monthlyFuelSpend_spec.
  reflexivity.
Qed.

Lemma pvEvCost_spec (data : CalculationInput) :
  Server.pvEvCost data
  = spec_levelStreamPV (spec_annualEnergyCost data) DISCOUNT_RATE
      (spec_termYears data).
Proof.
  unfold Server.pvEvCost, spec_annualEnergyCost, Server.annualEvCost,
    Server.distanceMonthly.
  rewrite termYears_spec.
  destruct (hasSolar data); cbv zeta; rewrite array_from_sum_sum_first;
    reflexivity.
Qed.

Lemma client_rawFuelSpendSavings_spec (data : CalculationInput) :
  Client.rawFuelSpendSavings data = toFixed2 (nominal_cumulative_savings data).
Proof.
  unfold Client.rawFuelSpendSavings, Client.cumFuel, Client.cumCharge,
    Client.calculateCumulativeCost, Client.totalMonths, nominal_cumulative_savings.
  change (Client.loanTermYears data) with (Server.loanTermYears data).
  change (Client.monthlyFuelSpend data) with (Server.monthlyFuelSpend data).
  rewrite termYears_spec, monthlyFuelSpend_spec, !for_sum_sum_first.
  reflexivity.
Qed.

(** C1. The server's handler returns, as [fuelSpendSavings],
    the two-decimal rounding of PV(ICE fuel cost) - PV(EV energy cost): the
    year-1 fuel cost escalated at the fuel inflation rate, each year
    discounted and summed over the loan term, minus the yearly energy cost
    (10% of it with solar) discounted and summed likewise; nothing clamps it
    at zero.  The client's [calculateSavings] returns something else: the
    two-decimal rounding of the undiscounted, monthly inflated fuel costs
    minus the undiscounted, monthly inflated charging costs. *)
Theorem C1_fuel_spend_savings (data : CalculationInput) :
  fuelSpendSavings (Server.calculate data)
  = Math_round (spec_fuelSpendSavings Server.FUEL_INFLATION data * 100) / 100
  /\ fuelSpendSavings (Client.calculateSavings data)
     = toFixed2 (nominal_cumulative_savings data).
Proof.
  split.
  - cbn [fuelSpendSavings Server.calculate].
    unfold Server.loanTermSavings, Server.fuelSpendSavings, spec_fuelSpendSavings.
    rewrite server_pvFuelCost_spec, pvEvCost_spec. reflexivity.
  - cbn [fuelSpendSavings Client.calculateSavings].
    apply client_rawFuelSpendSavings_spec.
Qed.

Lemma Rpower_ge_1 (e y : R) : 1 <= e -> 0 <= y -> 1 <= Rpower e y.
Proof.
  intros He Hy. rewrite <- (Rpower_O e) by lra.
  apply Rle_Rpower; assumption.
Qed.

Lemma Rpower_le_base (e y : R) : 1 <= e -> y <= 1 -> Rpower e y <= e.
Proof.
  intros He Hy. rewrite <- (Rpower_1 e) at 2 by lra.
  apply Rle_Rpower; assumption.
Qed.

(** Inflated monthly costs sum to no less than the flat costs. *)
Lemma cumulative_cost_lower (c infl : R) (months : nat) :
  0 <= c -> 0 <= infl ->
  INR months * c <= Client.calculateCumulativeCost c infl months.
Proof.
  intros Hc Hi. unfold Client.calculateCumulativeCost, Math_pow_frac.
  induction months as [|n IH].
  - unfold for_sum. simpl. lra.
  - rewrite for_sum_S, S_INR. cbv zeta.
    assert (Hp : 1 <= Rpower (1 + infl) (INR n / 12)).
    { apply Rpower_ge_1; [lra|]. pose proof (pos_INR n). lra. }
    nra.
Qed.

(** Within the first year no month is inflated by more than a year's rate. *)
Lemma cumulative_cost_upper_first_year (c infl : R) (months : nat) :
  0 <= c -> 0 <= infl -> (months <= 12)%nat ->
  Client.calculateCumulativeCost c infl months <= INR months * c * (1 + infl).
Proof.
  intros Hc Hi. unfold Client.calculateCumulativeCost, Math_pow_frac.
  induction months as [|n IH]; intros Hn.
  - unfold for_sum. simpl. lra.
  - rewrite for_sum_S, S_INR. cbv zeta.
    assert (Hle : INR n <= 12).
    { replace 12 with (INR 12) by (simpl; lra). apply le_INR. lia. }
    assert (Hp : Rpower (1 + infl) (INR n / 12) <= 1 + infl)
      by (apply Rpower_le_base; lra).
    specialize (IH ltac:(lia)).
    nra.
Qed.

Lemma toFixed2_lower (x : R) : x - 1 / 200 <= toFixed2 x.
Proof.
  destruct (toFixed2_is_round2 x) as (k & _ & Hk).
  apply Rabs_le_between in Hk. lra.
Qed.

(** C1 does not hold of the client with the present-value difference: for a
    one-year term at 1500 km a month on petrol 95, the returned
    [fuelSpendSavings] exceeds the present value difference of the fuel and
    energy cost streams by more than 600. *)
Lemma C1_counterexample :
  spec_fuelSpendSavings Client.FUEL_INFLATION request_one_year + 600
  < fuelSpendSavings (Client.calculateSavings request_one_year)
  /\ fuelSpendSavings (Client.calculateSavings request_one_year)
     <> spec_fuelSpendSavings Client.FUEL_INFLATION request_one_year.
Proof.
  assert (Hspend : Client.monthlyFuelSpend request_one_year = 2918.7).
  { change (Client.monthlyFuelSpend request_one_year)
      with (Server.monthlyFuelSpend request_one_year).
    rewrite petrol95_monthlyFuelSpend by reflexivity. simpl. lra. }
  assert (Hcharge : Client.monthlyChargingCost request_one_year = 1142.505).
  { unfold Client.monthlyChargingCost, Client.baseMonthlyChargingCost,
      Client.monthlyEvConsumption, Client.monthlyChargingRate,
      Client.distanceMonthly, EV_CONSUMPTION, ESKOM_RATE, STANDARD_ESKOM_RATE,
      PREMIUM_ESKOM_RATE.
    simpl. lra. }
  assert (Hfuel : 12 * 2918.7 <= Client.cumFuel request_one_year).
  { unfold Client.cumFuel. rewrite Hspend.
    pose proof (cumulative_cost_lower 2918.7 Client.FUEL_INFLATION
                  (Client.totalMonths request_one_year)) as H.
    unfold Client.FUEL_INFLATION in *.
    change (INR (Client.totalMonths request_one_year)) with (INR 12) in H.
    simpl INR in H. specialize (H ltac:(lra) ltac:(lra)). lra. }
  assert (Hch : Client.cumCharge request_one_year <= 12 * 1142.505 * 1.1062).
  { unfold Client.cumCharge. rewrite Hcharge.
    pose proof (cumulative_cost_upper_first_year 1142.505
                  Client.ELECTRICITY_INFLATION
                  (Client.totalMonths request_one_year)) as H.
    unfold Client.ELECTRICITY_INFLATION in *.
    change (INR (Client.totalMonths request_one_year)) with (INR 12) in H.
    simpl INR in H.
    assert (Hm : (Client.totalMonths request_one_year <= 12)%nat)
      by (vm_compute; lia).
    specialize (H ltac:(lra) ltac:(lra) Hm). lra. }
  assert (Hspec : spec_fuelSpendSavings Client.FUEL_INFLATION request_one_year
                  = (2918.7 * 12 - 1500 * 12 * 0.189 * 4.03) / 1.1095).
  { unfold spec_fuelSpendSavings, spec_escalatedStreamPV, spec_levelStreamPV,
      spec_annualEnergyCost, spec_termYears.
    rewrite <- monthlyFuelSpend_spec.
    change (Server.monthlyFuelSpend request_one_year)
      with (Client.monthlyFuelSpend request_one_year).
    rewrite Hspend.
    unfold DISCOUNT_RATE, EV_CONSUMPTION, ESKOM_RATE, STANDARD_ESKOM_RATE,
      PREMIUM_ESKOM_RATE.
    cbn [loanTermYears hasSolar distance request_one_year sum_first Nat.add pow].
    lra. }
  pose proof (toFixed2_lower
                (Client.cumFuel request_one_year - Client.cumCharge request_one_year))
    as Hround.
  cbn [fuelSpendSavings Client.calculateSavings].
  unfold Client.rawFuelSpendSavings.
  rewrite Hspec.
  split; [lra | lra].
Qed.

(** * Further properties of the engine *)

(** ** The lookup tables *)

Create HintDb engine discriminated.

#[local] Hint Unfold
  Server.calculate Server.standardUpfrontBenefits Server.yearlyCO2Savings
  Server.monthlyCO2Savings Server.evMonthlyEmissions Server.iceMonthlyEmissions
  Server.totalSavings Server.loanTermSavings Server.upfrontSavings
  Server.carbonTaxSavings Server.pvEbucks Server.year1Ebucks
  Server.qualifyingLitres Server.effectiveFuelSpend Server.totalRate
  Server.financingRate Server.insuranceRate Server.baseRate
  Server.fuelSpendSavings Server.pvEvCost Server.annualEvCost Server.pvFuelCost
  Server.year1FuelCost Server.monthlyFuelSpend Server.fuelPrice
  Server.monthlyLitres Server.consumptionRate Server.loanTermYears
  Server.distanceMonthly Server.level Server.calculateStandardUpfrontBenefits
  Client.calculateSavings Client.standardUpfrontBenefits Client.yearlyCO2Savings
  Client.monthlyCO2Savings Client.evMonthlyEmissions Client.iceMonthlyEmissions
  Client.totalSavings Client.loanTermSavings Client.upfrontSavings
  Client.carbonTaxSavings Client.pvEbucks Client.year1Ebucks
  Client.qualifyingLitres Client.effectiveFuelSpend Client.totalRate
  Client.financingRate Client.insuranceRate Client.baseRate
  Client.fuelSpendSavings Client.pvEvCost Client.annualEvCost
  Client.rawFuelSpendSavings Client.cumCharge Client.cumFuel Client.totalMonths
  Client.monthlyChargingCost Client.baseMonthlyChargingCost
  Client.monthlyEvConsumption Client.monthlyChargingRate
  Client.monthlyFuelSpend Client.fuelPrice Client.monthlyLitres
  Client.consumptionRate Client.loanTermYears Client.distanceMonthly
  Client.level Client.calculateStandardUpfrontBenefits calculateMonthlyCO2
  : engine.


(** Whatever the fuel type, the consumption and price that the lookups give
    are those of one of the three table rows. *)
Lemma fuel_lookup_cases (f : string) :
  let c := or_else (lookup_str FUEL_CONSUMPTION f) 9 in
  let p := or_else (lookup_str FUEL_PRICES f) 21.62 in
  (c = 8 /\ p = 19.32) \/ (c = 9 /\ p = 21.62) \/ (c = 9 /\ p = 21.51).
Proof.
  cbn [lookup_str FUEL_CONSUMPTION FUEL_PRICES].
  destruct (String.eqb f "diesel");
    [left; split; apply or_else_Some; lra|].
  destruct (String.eqb f "petrol95");
    [right; left; split; apply or_else_Some; lra|].
  destruct (String.eqb f "petrol93");
    [right; right; split; apply or_else_Some; lra|].
  right; left. split; reflexivity.
Qed.

Lemma unlisted_tier_lookups (lvl : Z) :
  (lvl < 1 \/ 5 < lvl)%Z ->
  lookup_Z BASE_EBUCKS lvl = None /\ lookup_Z INSURANCE_RATES lvl = None
  /\ lookup_Z FINANCING_RATES lvl = None.
Proof.
  intros Hl. cbn [lookup_Z BASE_EBUCKS INSURANCE_RATES FINANCING_RATES].
  destruct (Z.eqb_spec lvl 1); [lia|]. destruct (Z.eqb_spec lvl 2); [lia|].
  destruct (Z.eqb_spec lvl 3); [lia|]. destruct (Z.eqb_spec lvl 4); [lia|].
  destruct (Z.eqb_spec lvl 5); [lia|]. repeat split.
Qed.

(** Whatever the tier, the three rates are non-negative; below tier 5 they
    are at most those of tier 4. *)
Lemma reward_rate_bounds (lvl : Z) :
  let b := or_else (lookup_Z BASE_EBUCKS lvl) 0 in
  let i := or_else (lookup_Z INSURANCE_RATES lvl) 0 in
  let f := or_else (lookup_Z FINANCING_RATES lvl) 0 in
  (0 <= b <= 3 /\ 0 <= i <= 2 /\ 0 <= f <= 2)
  /\ (lvl <> 5%Z -> b <= 1.5 /\ i <= 0.8 /\ f <= 0.8).
Proof.
  cbn [lookup_Z BASE_EBUCKS INSURANCE_RATES FINANCING_RATES].
  destruct (Z.eqb_spec lvl 1);
    [rewrite !or_else_Some by lra; split; [|intros _]; lra|].
  destruct (Z.eqb_spec lvl 2);
    [rewrite !or_else_Some by lra; split; [|intros _]; lra|].
  destruct (Z.eqb_spec lvl 3);
    [rewrite !or_else_Some by lra; split; [|intros _]; lra|].
  destruct (Z.eqb_spec lvl 4);
    [rewrite !or_else_Some by lra; split; [|intros _]; lra|].
  destruct (Z.eqb_spec lvl 5);
    [rewrite !or_else_Some by lra; split; [lra | intros H; contradiction]|].
  cbn [or_else]. split; [|intros _]; lra.
Qed.



(** X2. A tier outside 1..5 earns no rewards: the returned
    [presentValueEbucks] is zero and [upfrontSavings] is the carbon-tax
    savings alone, on the server and on the client. *)
Theorem X2_unlisted_tier_earns_nothing (data : CalculationInput) :
  (ebucksLevel data < 1 \/ 5 < ebucksLevel data)%Z ->
  (presentValueEbucks (Server.calculate data) = 0
   /\ upfrontSavings (Server.calculate data) = carbonTaxSavings (Server.calculate data))
  /\ (presentValueEbucks (Client.calculateSavings data) = 0
      /\ upfrontSavings (Client.calculateSavings data)
         = carbonTaxSavings (Client.calculateSavings data)).
Proof.
  intros Hl. destruct (unlisted_tier_lookups _ Hl) as (Hb & Hi & Hf).
  assert (Rs : Server.totalRate data = 0).
  { unfold Server.totalRate, Server.baseRate, Server.insuranceRate,
      Server.financingRate, Server.level.
    rewrite Hb, Hi, Hf. cbn [or_else].
    destruct (negb (hasNoBank data)), (hasInsurance data), (hasFinancing data); lra. }
  assert (Ps : Server.pvEbucks data = 0).
  { unfold Server.pvEbucks, Server.year1Ebucks. rewrite Rs.
    replace (0 * Server.qualifyingLitres data * 12) with 0 by ring.
    apply presentValueOfGrowingAnnuity_zero. }
  assert (Pc : Client.pvEbucks data = 0).
  { unfold Client.pvEbucks, Client.year1Ebucks.
    change (Client.totalRate data) with (Server.totalRate data). rewrite Rs.
    replace (0 * Client.qualifyingLitres data * 12) with 0 by ring.
    apply presentValueOfGrowingAnnuity_zero. }
  cbn [presentValueEbucks upfrontSavings carbonTaxSavings Server.calculate
       Client.calculateSavings].
  unfold Server.upfrontSavings, Client.upfrontSavings.
  rewrite Ps, Pc, Math_round2_zero, toFixed2_zero, !Rplus_0_l.
  repeat split; reflexivity.
Qed.

Lemma X2_witness :
  presentValueEbucks (Server.calculate request_unlisted) = 0
  /\ presentValueEbucks (Client.calculateSavings request_unlisted) = 0.
Proof.
  assert (Hl : (ebucksLevel request_unlisted < 1
                \/ 5 < ebucksLevel request_unlisted)%Z)
    by (right; reflexivity).
  pose proof (X2_unlisted_tier_earns_nothing request_unlisted Hl)
    as [[Hs _] [Hc _]].
  split; assumption.
Defined.

(** X3. The loan term reaches only [fuelSpendSavings] and [totalSavings]:
    the rewards, the carbon-tax savings, [upfrontSavings], the standard
    benefits and the emissions of a request are those of the same request at
    any other term.  A term of zero, which also stands for an absent field,
    gets the whole five-year result. *)
Theorem X3_loan_term_frame_and_default (data : CalculationInput) (t : nat) :
  (let r := Server.calculate data in
   let r' := Server.calculate (with_loanTermYears t data) in
   presentValueEbucks r' = presentValueEbucks r
   /\ carbonTaxSavings r' = carbonTaxSavings r
   /\ upfrontSavings r' = upfrontSavings r
   /\ standardUpfrontBenefits r' = standardUpfrontBenefits r
   /\ co2Emissions r' = co2Emissions r)
  /\ (let r := Client.calculateSavings data in
      let r' := Client.calculateSavings (with_loanTermYears t data) in
      presentValueEbucks r' = presentValueEbucks r
      /\ carbonTaxSavings r' = carbonTaxSavings r
      /\ upfrontSavings r' = upfrontSavings r
      /\ standardUpfrontBenefits r' = standardUpfrontBenefits r
      /\ co2Emissions r' = co2Emissions r)
  /\ Server.calculate (with_loanTermYears 0 data)
     = Server.calculate (with_loanTermYears 5 data)
  /\ Client.calculateSavings (with_loanTermYears 0 data)
     = Client.calculateSavings (with_loanTermYears 5 data).
Proof.
  destruct data as [l f x i fi s nb t0]. cbv zeta.
  repeat split; reflexivity.
Qed.

(** ** The carbon-tax table *)

Lemma carbonTaxRate_backward_fill (year : Z) :
  (year < 2025)%Z -> carbonTaxRate year = 495.
Proof.
  intros Hy. unfold carbonTaxRate. rewrite max_key_CARBON_TAX.
  cbn [lookup_Z CARBON_TAX].
  repeat match goal with
         | |- context [Z.eqb year ?k] =>
             destruct (Z.eqb_spec year k) as [E|_]; [lia|]
         end.
  reflexivity.
Qed.

(** X4. A year that the carbon-tax table does not list, after 2032 or
    before 2025, gets the rate of the table's last year, 495; and whatever
    the year, the rate lies between 236 and 495. *)
Theorem X4_carbon_tax_rate_outside_table (year : Z) :
  ((year < 2025 \/ 2032 < year)%Z -> carbonTaxRate year = 495)
  /\ 236 <= carbonTaxRate year <= 495.
Proof.
  split.
  - intros [H | H];
      [apply carbonTaxRate_backward_fill | apply carbonTaxRate_forward_fill];
      assumption.
  - destruct (Z_lt_le_dec year 2025) as [Hlo | Hlo].
    { rewrite carbonTaxRate_backward_fill by assumption. lra. }
    destruct (Z_lt_le_dec 2032 year) as [Hhi | Hhi].
    { rewrite carbonTaxRate_forward_fill by assumption. lra. }
    unfold carbonTaxRate. cbn [lookup_Z CARBON_TAX].
    repeat match goal with
           | |- context [Z.eqb year ?k] =>
               destruct (Z.eqb_spec year k) as [?|?];
               [rewrite or_else_Some by lra; lra|]
           end.
    exfalso. lia.
Qed.

Lemma X4_witness : carbonTaxRate 2040 = 495 /\ carbonTaxRate 1999 = 495.
Proof.
  split.
  - apply (proj1 (X4_carbon_tax_rate_outside_table 2040)). right. reflexivity.
  - apply (proj1 (X4_carbon_tax_rate_outside_table 1999)). left. reflexivity.
Defined.

(** ** Sums and roundings, continued *)

Lemma sum_first_nonneg (n : nat) (f : nat -> R) :
  (forall i, (i < n)%nat -> 0 <= f i) -> 0 <= sum_first n f.
Proof.
  induction n as [|n IH]; intros H; cbn [sum_first]; [lra|].
  pose proof (IH (fun i Hi => H i (Nat.lt_lt_succ_r _ _ Hi))).
  pose proof (H n (Nat.lt_succ_diag_r n)). lra.
Qed.

Lemma sum_first_pos (n : nat) (f : nat -> R) :
  (0 < n)%nat -> (forall i, (i < n)%nat -> 0 < f i) -> 0 < sum_first n f.
Proof.
  intros Hn H. destruct n as [|n]; [lia|]. cbn [sum_first].
  assert (0 <= sum_first n f).
  { apply sum_first_nonneg. intros i Hi. apply Rlt_le, H. lia. }
  pose proof (H n (Nat.lt_succ_diag_r n)). lra.
Qed.

Lemma sum_first_scale (n : nat) (k : R) (f : nat -> R) :
  sum_first n (fun i => k * f i) = k * sum_first n f.
Proof.
  induction n as [|n IH]; cbn [sum_first]; [ring|]. rewrite IH. ring.
Qed.

Lemma sum_first_le (n : nat) (f g : nat -> R) :
  (forall i, (i < n)%nat -> f i <= g i) -> sum_first n f <= sum_first n g.
Proof.
  induction n as [|n IH]; intros H; cbn [sum_first]; [lra|].
  pose proof (IH (fun i Hi => H i (Nat.lt_lt_succ_r _ _ Hi))).
  pose proof (H n (Nat.lt_succ_diag_r n)). lra.
Qed.

Lemma discount_term_pos (g d : R) (i : nat) :
  0 < 1 + g -> 0 < 1 + d -> 0 < (1 + g) ^ i / (1 + d) ^ (i + 1).
Proof.
  intros Hg Hd. apply Rdiv_lt_0_compat; apply pow_lt; assumption.
Qed.

Lemma escalatedStream_scale (cf g d : R) (n : nat) :
  spec_escalatedStreamPV cf g d n = cf * spec_escalatedStreamPV 1 g d n.
Proof.
  unfold spec_escalatedStreamPV. rewrite <- sum_first_scale.
  apply sum_first_ext. intros i _. unfold Rdiv. ring.
Qed.

Lemma escalatedStream_unit_nonneg (g d : R) (n : nat) :
  0 < 1 + g -> 0 < 1 + d -> 0 <= spec_escalatedStreamPV 1 g d n.
Proof.
  intros Hg Hd. unfold spec_escalatedStreamPV. apply sum_first_nonneg.
  intros i _. pose proof (discount_term_pos g d i Hg Hd) as H.
  unfold Rdiv in *. rewrite Rmult_assoc, Rmult_1_l. lra.
Qed.

Lemma levelStream_scale (c d : R) (n : nat) :
  spec_levelStreamPV c d n = c * spec_levelStreamPV 1 d n.
Proof.
  unfold spec_levelStreamPV. rewrite <- sum_first_scale.
  apply sum_first_ext. intros i _. unfold Rdiv. ring.
Qed.

Lemma levelStream_unit_nonneg (d : R) (n : nat) :
  0 < 1 + d -> 0 <= spec_levelStreamPV 1 d n.
Proof.
  intros Hd. unfold spec_levelStreamPV. apply sum_first_nonneg.
  intros i _. apply Rlt_le, Rdiv_lt_0_compat; [lra | apply pow_lt; assumption].
Qed.

Lemma carbonTaxPV_scale (tonnes : R) :
  spec_carbonTaxPV tonnes = tonnes * spec_carbonTaxPV 1.
Proof.
  unfold spec_carbonTaxPV. rewrite <- sum_first_scale.
  apply sum_first_ext. intros i _. unfold Rdiv. ring.
Qed.

Lemma carbonTaxPV_unit_pos : 0 < spec_carbonTaxPV 1.
Proof.
  unfold spec_carbonTaxPV. apply sum_first_pos; [lia|].
  intros i Hi. apply Rdiv_lt_0_compat; [|apply pow_lt; lra].
  do 5 (destruct i as [|i]; [cbn [nth]; lra|]). lia.
Qed.

Lemma round2_nonneg (x : R) : 0 <= x -> 0 <= Math_round (x * 100) / 100.
Proof.
  intros Hx. pose proof (round2_le 0 x Hx) as H.
  rewrite Math_round2_zero in H. exact H.
Qed.

Lemma toFixed2_le (x y : R) : x <= y -> toFixed2 x <= toFixed2 y.
Proof.
  intros Hxy. unfold toFixed2, Math_floor.
  destruct (Rlt_dec x 0) as [Hx|Hx], (Rlt_dec y 0) as [Hy|Hy].
  - assert (H : (Zfloor (- y * 100 + 1 / 2) <= Zfloor (- x * 100 + 1 / 2))%Z)
      by (apply Zfloor_le; lra).
    apply IZR_le in H. lra.
  - assert (H1 : (0 <= Zfloor (- x * 100 + 1 / 2))%Z) by (apply Zfloor_lub; lra).
    assert (H2 : (0 <= Zfloor (y * 100 + 1 / 2))%Z) by (apply Zfloor_lub; lra).
    apply IZR_le in H1, H2. lra.
  - lra.
  - assert (H : (Zfloor (x * 100 + 1 / 2) <= Zfloor (y * 100 + 1 / 2))%Z)
      by (apply Zfloor_le; lra).
    apply IZR_le in H. lra.
Qed.

Lemma toFixed2_nonneg_value (x : R) : 0 <= x -> 0 <= toFixed2 x.
Proof.
  intros Hx. pose proof (toFixed2_le 0 x Hx) as H.
  rewrite toFixed2_zero in H. exact H.
Qed.

(** ** Signs and monotonicity of the intermediate quantities *)

Lemma consumptionRate_pos (data : CalculationInput) :
  8 <= Server.consumptionRate data <= 9.
Proof.
  unfold Server.consumptionRate.
  destruct (fuel_lookup_cases (fuelType data)) as [[H _]|[[H _]|[H _]]];
    rewrite H; lra.
Qed.

Lemma fuelPrice_pos (data : CalculationInput) :
  19.32 <= Server.fuelPrice data <= 21.62.
Proof.
  unfold Server.fuelPrice.
  destruct (fuel_lookup_cases (fuelType data)) as [[_ H]|[[_ H]|[_ H]]];
    rewrite H; lra.
Qed.

Lemma totalRate_nonneg (data : CalculationInput) : 0 <= Server.totalRate data.
Proof.
  unfold Server.totalRate, Server.baseRate, Server.insuranceRate,
    Server.financingRate, Server.level.
  destruct (reward_rate_bounds (ebucksLevel data)) as [(Hb & Hi & Hf) _].
  cbv zeta in *.
  destruct (negb (hasNoBank data)), (hasInsurance data), (hasFinancing data); lra.
Qed.

Lemma monthlyFuelSpend_nonneg (data : CalculationInput) :
  0 <= distance data -> 0 <= Server.monthlyFuelSpend data.
Proof.
  intros Hd. unfold Server.monthlyFuelSpend, Server.monthlyLitres,
    Server.distanceMonthly.
  pose proof (consumptionRate_pos data). pose proof (fuelPrice_pos data).
  apply Rmult_le_pos; [|lra].
  apply Rmult_le_pos; [|lra]. apply Rmult_le_pos; lra.
Qed.

Lemma qualifyingLitres_nonneg (data : CalculationInput) :
  0 <= distance data -> 0 <= Server.qualifyingLitres data.
Proof.
  intros Hd. unfold Server.qualifyingLitres, Server.effectiveFuelSpend,
    MONTHLY_FUEL_SPEND_CAP.
  pose proof (monthlyFuelSpend_nonneg data Hd). pose proof (fuelPrice_pos data).
  apply Rmult_le_pos; [|apply Rlt_le, Rinv_0_lt_compat; lra].
  apply Rmin_glb; lra.
Qed.

Lemma server_pvEbucks_factor (data : CalculationInput) :
  Server.pvEbucks data
  = Server.year1Ebucks data * spec_escalatedStreamPV 1 0.09 0.1095 5.
Proof.
  rewrite server_pvEbucks_five_years. apply escalatedStream_scale.
Qed.

Lemma client_pvEbucks_factor (data : CalculationInput) :
  Client.pvEbucks data
  = Server.year1Ebucks data * spec_escalatedStreamPV 1 0.075 0.1095 5.
Proof.
  rewrite client_pvEbucks_five_years. apply escalatedStream_scale.
Qed.

Lemma carbonTaxSavings_factor (data : CalculationInput) :
  Server.carbonTaxSavings data
  = (if hasNoBank data then 0 else Server.monthlyLitres data * 12 * 2.35 / 1000)
    * spec_carbonTaxPV 1.
Proof.
  rewrite server_carbonTax_five_years.
  destruct (hasNoBank data); [ring | apply carbonTaxPV_scale].
Qed.

Lemma client_server_carbonTaxSavings (data : CalculationInput) :
  Client.carbonTaxSavings data = Server.carbonTaxSavings data.
Proof. reflexivity. Qed.

Lemma year1Ebucks_nonneg (data : CalculationInput) :
  0 <= distance data -> 0 <= Server.year1Ebucks data.
Proof.
  intros Hd. unfold Server.year1Ebucks.
  pose proof (totalRate_nonneg data). pose proof (qualifyingLitres_nonneg data Hd).
  apply Rmult_le_pos; [apply Rmult_le_pos; assumption | lra].
Qed.

Lemma pvEbucks_nonneg (data : CalculationInput) :
  0 <= distance data -> 0 <= Server.pvEbucks data /\ 0 <= Client.pvEbucks data.
Proof.
  intros Hd. rewrite server_pvEbucks_factor, client_pvEbucks_factor.
  pose proof (year1Ebucks_nonneg data Hd).
  split; apply Rmult_le_pos; try assumption;
    apply escalatedStream_unit_nonneg; lra.
Qed.

Lemma monthlyLitres_nonneg (data : CalculationInput) :
  0 <= distance data -> 0 <= Server.monthlyLitres data.
Proof.
  intros Hd. unfold Server.monthlyLitres, Server.distanceMonthly.
  pose proof (consumptionRate_pos data).
  apply Rmult_le_pos; [apply Rmult_le_pos; lra | lra].
Qed.

Lemma carbonTaxSavings_nonneg (data : CalculationInput) :
  0 <= distance data -> 0 <= Server.carbonTaxSavings data.
Proof.
  intros Hd. rewrite carbonTaxSavings_factor.
  pose proof carbonTaxPV_unit_pos. pose proof (monthlyLitres_nonneg data Hd).
  apply Rmult_le_pos; [|lra]. destruct (hasNoBank data); lra.
Qed.

(** ** Present values are never negative *)

(** X5. For a non-negative distance the returned reward present value,
    carbon-tax savings and upfront savings are non-negative, on the server
    and on the client. *)
Theorem X5_upfront_values_nonnegative (data : CalculationInput) :
  0 <= distance data ->
  (let r := Server.calculate data in
   0 <= presentValueEbucks r /\ 0 <= carbonTaxSavings r /\ 0 <= upfrontSavings r)
  /\ (let r := Client.calculateSavings data in
      0 <= presentValueEbucks r /\ 0 <= carbonTaxSavings r
      /\ 0 <= upfrontSavings r).
Proof.
  intros Hd. destruct (pvEbucks_nonneg data Hd) as [Hs Hc].
  pose proof (carbonTaxSavings_nonneg data Hd) as Ht.
  cbv zeta.
  cbn [presentValueEbucks carbonTaxSavings upfrontSavings Server.calculate
       Client.calculateSavings].
  unfold Server.upfrontSavings, Client.upfrontSavings.
  change (Client.carbonTaxSavings data) with (Server.carbonTaxSavings data).
  repeat split; (apply round2_nonneg || apply toFixed2_nonneg_value); lra.
Qed.

Lemma X5_witness :
  0 <= presentValueEbucks (Server.calculate example_request)
  /\ 0 <= carbonTaxSavings (Client.calculateSavings example_request).
Proof.
  assert (Hd : 0 <= distance example_request) by (simpl; lra).
  pose proof (X5_upfront_values_nonnegative example_request Hd)
    as [(Hs & _) (_ & Hc & _)].
  split; assumption.
Defined.

(** ** Rewards grow with the distance, up to the cap *)

Lemma monthlyFuelSpend_le (d1 d2 : CalculationInput) :
  fuelType d1 = fuelType d2 -> distance d1 <= distance d2 ->
  Server.monthlyFuelSpend d1 <= Server.monthlyFuelSpend d2.
Proof.
  intros Hf Hd.
  pose proof (consumptionRate_pos d1). pose proof (fuelPrice_pos d1).
  unfold Server.monthlyFuelSpend, Server.monthlyLitres, Server.distanceMonthly,
    Server.consumptionRate, Server.fuelPrice in *.
  rewrite <- Hf.
  set (c := or_else (lookup_str FUEL_CONSUMPTION (fuelType d1)) 9) in *.
  set (p := or_else (lookup_str FUEL_PRICES (fuelType d1)) 21.62) in *.
  apply Rmult_le_compat_r; [lra|].
  apply Rmult_le_compat_r; [lra|].
  apply Rmult_le_compat_l; lra.
Qed.

Lemma year1Ebucks_le (d1 d2 : CalculationInput) :
  differ_only_in_distance d1 d2 ->
  distance d1 <= distance d2
  \/ MONTHLY_FUEL_SPEND_CAP <= Server.monthlyFuelSpend d2 ->
  Server.year1Ebucks d1 <= Server.year1Ebucks d2.
Proof.
  intros (Hl & Hf & Hi & Hfi & _ & Hnb & _) Hord.
  assert (T : Server.totalRate d1 = Server.totalRate d2).
  { unfold Server.totalRate, Server.baseRate, Server.insuranceRate,
      Server.financingRate, Server.level.
    rewrite Hl, Hi, Hfi, Hnb. reflexivity. }
  assert (P : Server.fuelPrice d1 = Server.fuelPrice d2)
    by (unfold Server.fuelPrice; rewrite Hf; reflexivity).
  assert (M : Server.effectiveFuelSpend d1 <= Server.effectiveFuelSpend d2).
  { unfold Server.effectiveFuelSpend. destruct Hord as [Hd | Hcap].
    - apply Rle_min_compat_r. apply monthlyFuelSpend_le; assumption.
    - rewrite (Rmin_right _ _ Hcap). apply Rmin_r. }
  pose proof (totalRate_nonneg d2). pose proof (fuelPrice_pos d2).
  unfold Server.year1Ebucks, Server.qualifyingLitres. rewrite T, P.
  apply Rmult_le_compat_r; [lra|].
  apply Rmult_le_compat_l; [assumption|].
  apply Rmult_le_compat_r; [apply Rlt_le, Rinv_0_lt_compat; lra | assumption].
Qed.

(** X6. The returned reward present value never decreases when only the
    distance grows, and it never exceeds that of a request whose fuel spend
    is at the cap or above; on the server and on the client. *)
Theorem X6_rewards_monotone_and_capped (d1 d2 : CalculationInput) :
  differ_only_in_distance d1 d2 ->
  distance d1 <= distance d2
  \/ MONTHLY_FUEL_SPEND_CAP <= Server.monthlyFuelSpend d2 ->
  presentValueEbucks (Server.calculate d1) <= presentValueEbucks (Server.calculate d2)
  /\ presentValueEbucks (Client.calculateSavings d1)
     <= presentValueEbucks (Client.calculateSavings d2).
Proof.
  intros Hdiff Hord. pose proof (year1Ebucks_le d1 d2 Hdiff Hord) as Hy.
  cbn [presentValueEbucks Server.calculate Client.calculateSavings].
  split; [apply round2_le | apply toFixed2_le].
  - rewrite !server_pvEbucks_factor.
    apply Rmult_le_compat_r; [apply escalatedStream_unit_nonneg; lra | exact Hy].
  - rewrite !client_pvEbucks_factor.
    apply Rmult_le_compat_r; [apply escalatedStream_unit_nonneg; lra | exact Hy].
Qed.

Lemma X6_witness :
  presentValueEbucks (Server.calculate example_request)
  <= presentValueEbucks (Server.calculate request_1600km)
  /\ presentValueEbucks (Client.calculateSavings request_2000km)
     <= presentValueEbucks (Client.calculateSavings request_1600km).
Proof.
  split.
  - apply (X6_rewards_monotone_and_capped example_request request_1600km).
    + repeat split.
    + left. simpl. lra.
  - apply (X6_rewards_monotone_and_capped request_2000km request_1600km).
    + repeat split.
    + right. rewrite petrol95_monthlyFuelSpend by reflexivity.
      unfold MONTHLY_FUEL_SPEND_CAP. simpl. lra.
Defined.

(** ** Emissions *)






(** ** The server's fuel spend savings are never negative *)








(** ** Solar charging *)

Lemma Rpower_pos (x y : R) : 0 < Rpower x y.
Proof. unfold Rpower. apply exp_pos. Qed.

Lemma cumulative_cost_sum_first (c infl : R) (months : nat) :
  Client.calculateCumulativeCost c infl months
  = sum_first months (fun m => c * Rpower (1 + infl) (INR m / 12)).
Proof.
  unfold Client.calculateCumulativeCost, Math_pow_frac.
  apply for_sum_sum_first.
Qed.

Lemma cumulative_cost_scale (c k infl : R) (months : nat) :
  Client.calculateCumulativeCost (c * k) infl months
  = Client.calculateCumulativeCost c infl months * k.
Proof.
  rewrite !cumulative_cost_sum_first.
  rewrite (Rmult_comm (sum_first months _) k), <- sum_first_scale.
  apply sum_first_ext. intros m _. ring.
Qed.

Lemma cumulative_cost_nonneg (c infl : R) (months : nat) :
  0 <= c -> 0 <= Client.calculateCumulativeCost c infl months.
Proof.
  intros Hc. rewrite cumulative_cost_sum_first. apply sum_first_nonneg.
  intros m _. pose proof (Rpower_pos (1 + infl) (INR m / 12)). nra.
Qed.

Lemma pvEvCost_solar (data : CalculationInput) :
  Server.pvEvCost (with_solar true data)
  = Server.pvEvCost (with_solar false data) * 0.1.
Proof.
  rewrite !pvEvCost_spec. unfold spec_annualEnergyCost, spec_termYears.
  cbn [hasSolar distance loanTermYears with_solar]. cbv zeta.
  rewrite levelStream_scale.
  rewrite (levelStream_scale (distance data * 12 * EV_CONSUMPTION * ESKOM_RATE)).
  ring.
Qed.

Lemma pvEvCost_grid_nonneg (data : CalculationInput) :
  0 <= distance data -> 0 <= Server.pvEvCost (with_solar false data).
Proof.
  intros Hd. rewrite pvEvCost_spec, levelStream_scale.
  apply Rmult_le_pos.
  - unfold spec_annualEnergyCost, EV_CONSUMPTION, ESKOM_RATE,
      STANDARD_ESKOM_RATE, PREMIUM_ESKOM_RATE.
    cbn [hasSolar distance with_solar]. cbv zeta. nra.
  - apply levelStream_unit_nonneg. unfold DISCOUNT_RATE. lra.
Qed.

Lemma cumCharge_solar (data : CalculationInput) :
  Client.cumCharge (with_solar true data)
  = Client.cumCharge (with_solar false data) * 0.1.
Proof.
  unfold Client.cumCharge, Client.monthlyChargingCost.
  cbn [hasSolar with_solar]. apply cumulative_cost_scale.
Qed.

Lemma cumCharge_grid_nonneg (data : CalculationInput) :
  0 <= distance data -> 0 <= Client.cumCharge (with_solar false data).
Proof.
  intros Hd. unfold Client.cumCharge. apply cumulative_cost_nonneg.
  unfold Client.monthlyChargingCost, Client.baseMonthlyChargingCost,
    Client.monthlyEvConsumption, Client.monthlyChargingRate,
    Client.distanceMonthly, EV_CONSUMPTION, ESKOM_RATE, STANDARD_ESKOM_RATE,
    PREMIUM_ESKOM_RATE.
  cbn [hasSolar distance with_solar]. nra.
Qed.

(** X9. Solar divides the charging cost by ten, in the discounted stream of
    the server and in the cumulative cost of the client; so for a
    non-negative distance a request with solar never gets a lower
    [fuelSpendSavings] than the same request without. *)
Theorem X9_solar_never_lowers_fuel_savings (data : CalculationInput) :
  0 <= distance data ->
  let solar := with_solar true data in
  let grid := with_solar false data in
  (Server.pvEvCost solar = Server.pvEvCost grid * 0.1
   /\ Client.cumCharge solar = Client.cumCharge grid * 0.1)
  /\ fuelSpendSavings (Server.calculate grid) <= fuelSpendSavings (Server.calculate solar)
  /\ fuelSpendSavings (Client.calculateSavings grid)
     <= fuelSpendSavings (Client.calculateSavings solar).
Proof.
  intros Hd solar grid. subst solar grid.
  pose proof (pvEvCost_solar data) as Es.
  pose proof (cumCharge_solar data) as Ec.
  pose proof (pvEvCost_grid_nonneg data Hd).
  pose proof (cumCharge_grid_nonneg data Hd).
  split; [split; assumption|].
  cbn [fuelSpendSavings Server.calculate Client.calculateSavings].
  unfold Server.loanTermSavings, Server.fuelSpendSavings, Client.rawFuelSpendSavings.
  split; [apply round2_le | apply toFixed2_le].
  - rewrite Es.
    change (Server.pvFuelCost (with_solar true data))
      with (Server.pvFuelCost (with_solar false data)).
    lra.
  - rewrite Ec.
    change (Client.cumFuel (with_solar true data))
      with (Client.cumFuel (with_solar false data)).
    lra.
Qed.

Lemma X9_witness :
  fuelSpendSavings (Server.calculate (with_solar false example_request))
  <= fuelSpendSavings (Server.calculate (with_solar true example_request))
  /\ fuelSpendSavings (Client.calculateSavings (with_solar false example_request))
     <= fuelSpendSavings (Client.calculateSavings (with_solar true example_request)).
Proof.
  assert (Hd : 0 <= distance example_request) by (simpl; lra).
  exact (proj2 (X9_solar_never_lowers_fuel_savings example_request Hd)).
Defined.

(** ** The client against the server *)




(** ** The returned emission fields fit together *)

Lemma round2_times12 (A B x : R) :
  is_round2 A x -> is_round2 B (x * 12) -> Rabs (B - 12 * A) <= 0.06.
Proof.
  intros (a & -> & Ha) (b & -> & Hb).
  apply Rabs_le_between in Ha, Hb.
  assert (Hz : IZR (b - 12 * a) = IZR b - 12 * IZR a)
    by (rewrite minus_IZR, mult_IZR; reflexivity).
  assert (Hlo : (-7 < b - 12 * a)%Z) by (apply lt_IZR; rewrite Hz; lra).
  assert (Hhi : (b - 12 * a < 7)%Z) by (apply lt_IZR; rewrite Hz; lra).
  assert (H1 : (-6 <= b - 12 * a)%Z) by lia.
  assert (H2 : (b - 12 * a <= 6)%Z) by lia.
  apply IZR_le in H1, H2. rewrite Hz in H1, H2.
  apply Rabs_le. lra.
Qed.

(** X11. In every response the rounded emission fields fit together:
    [monthlySavings] is within one hundredth of [ice - ev], and
    [yearlySavings] within six hundredths of twelve times [monthlySavings];
    on the server and on the client. *)
Theorem X11_emission_fields_consistent (data : CalculationInput) :
  (let c := co2Emissions (Server.calculate data) in
   Rabs (monthlySavings c - (ice c - ev c)) <= 0.01
   /\ Rabs (yearlySavings c - 12 * monthlySavings c) <= 0.06)
  /\ (let c := co2Emissions (Client.calculateSavings data) in
      Rabs (monthlySavings c - (ice c - ev c)) <= 0.01
      /\ Rabs (yearlySavings c - 12 * monthlySavings c) <= 0.06).
Proof.
  cbv zeta.
  cbn [co2Emissions ice ev monthlySavings yearlySavings Server.calculate
       Client.calculateSavings].
  assert (Hsub : forall A B C x y,
             is_round2 A x -> is_round2 B y -> is_round2 C (x - y) ->
             Rabs (C - (A - B)) <= 0.01).
  { intros A B C x y HA HB HC.
    assert (HA' : is_round2 A (x - y + y)) by (replace (x - y + y) with x by ring; exact HA).
    pose proof (round2_sum C B A (x - y) y HC HB HA') as H.
    apply Rabs_le_between in H. apply Rabs_le. lra. }
  repeat split.
  - apply Hsub with (x := Server.iceMonthlyEmissions data)
                    (y := Server.evMonthlyEmissions data);
      apply Math_round_is_round2.
  - apply round2_times12 with (x := Server.monthlyCO2Savings data);
      apply Math_round_is_round2.
  - apply Hsub with (x := Client.iceMonthlyEmissions data)
                    (y := Client.evMonthlyEmissions data);
      apply toFixed2_is_round2.
  - apply round2_times12 with (x := Client.monthlyCO2Savings data);
      apply toFixed2_is_round2.
Qed.

(** ** Discounting *)

(** X12. Discounting composes: a cash flow discounted over [m] years and
    then over [n] more is the cash flow discounted over [m + n] years; and a
    positive cash flow at a positive rate loses value with every further
    year. *)
Theorem X12_presentValue_composes (c d : R) (m n : nat) :
  1 + d <> 0 ->
  presentValue (presentValue c d m) d n = presentValue c d (m + n)
  /\ (0 < c -> 0 < d -> presentValue c d (S n) < presentValue c d n).
Proof.
  intros Hd. unfold presentValue, Math_pow. split.
  - rewrite pow_add. field. split; apply pow_nonzero; assumption.
  - intros Hc Hpos.
    assert (Hp : 0 < (1 + d) ^ n) by (apply pow_lt; lra).
    cbn [pow]. unfold Rdiv.
    assert (Hi : / ((1 + d) * (1 + d) ^ n) < / (1 + d) ^ n).
    { apply Rinv_lt_contravar; nra. }
    nra.
Qed.

Lemma X12_witness :
  presentValue (presentValue 100 0.1095 2) 0.1095 3 = presentValue 100 0.1095 5
  /\ presentValue 100 0.1095 (S 4) < presentValue 100 0.1095 4.
Proof.
  assert (Hd : 1 + 0.1095 <> 0) by lra.
  destruct (X12_presentValue_composes 100 0.1095 2 3 Hd) as [Hc _].
  destruct (X12_presentValue_composes 100 0.1095 0 4 Hd) as [_ Hm].
  split; [exact Hc | apply Hm; lra].
Defined.

(** ** The degenerate branch of the growing annuity *)

Lemma equal_rates_loop_sum (cf d : R) (n : nat) :
  1 + d <> 0 -> spec_escalatedStreamPV cf d d n = cf * INR n / (1 + d).
Proof.
  intros Hd. unfold spec_escalatedStreamPV.
  induction n as [|n IH]; [cbn; field; assumption|].
  cbn [sum_first]. rewrite IH, S_INR.
  replace (n + 1)%nat with (S n) by lia. cbn [pow].
  assert (Hp : (1 + d) ^ n <> 0) by (apply pow_nonzero; assumption).
  field. split; assumption.
Qed.

Lemma equal_rates_closed_form (cf d : R) (n : nat) :
  presentValueOfGrowingAnnuity cf d d n = cf * INR n / (1 + d) ^ n.
Proof.
  unfold presentValueOfGrowingAnnuity, Math_pow.
  destruct (Rlt_dec (Rabs (d - d)) 1e-9) as [_|Hfar]; [reflexivity|].
  exfalso. apply Hfar. replace (d - d) with 0 by ring. rewrite Rabs_R0. lra.
Qed.

(** X13. At equal growth and discount rates the function does not return
    the stream's present value [cf * n / (1 + d)]: it returns that value
    divided by [(1 + d)^(n-1)], which for a positive cash flow, a positive
    rate and two periods or more is strictly less. *)
Theorem X13_equal_rates_undervalued (cf d : R) (n : nat) :
  0 < cf -> 0 < d -> (2 <= n)%nat ->
  presentValueOfGrowingAnnuity cf d d n * (1 + d) ^ (n - 1)
  = spec_escalatedStreamPV cf d d n
  /\ presentValueOfGrowingAnnuity cf d d n < spec_escalatedStreamPV cf d d n.
Proof.
  intros Hcf Hd Hn.
  assert (Hd1 : 1 + d <> 0) by lra.
  rewrite equal_rates_closed_form, equal_rates_loop_sum by assumption.
  destruct n as [|n]; [lia|].
  replace (S n - 1)%nat with n by lia.
  assert (Hp : 0 < (1 + d) ^ n) by (apply pow_lt; lra).
  assert (Hg : 1 < (1 + d) ^ n).
  { destruct n as [|n]; [lia|].
    assert (1 <= (1 + d) ^ n) by (apply pow_R1_Rle; lra).
    cbn [pow]. nra. }
  assert (Hn0 : 0 < INR (S n)) by (apply lt_0_INR; lia).
  cbn [pow]. split.
  - field. split; lra.
  - unfold Rdiv.
    assert (Hi : / ((1 + d) * (1 + d) ^ n) < / (1 + d)).
    { apply Rinv_lt_contravar; nra. }
    assert (0 < cf * INR (S n)) by nra.
    nra.
Qed.

Lemma X13_witness :
  presentValueOfGrowingAnnuity 100 0.1095 0.1095 5
  < spec_escalatedStreamPV 100 0.1095 0.1095 5.
Proof.
  apply (X13_equal_rates_undervalued 100 0.1095 5); [lra | lra | lia].
Defined.

(** ** Cumulative nominal costs *)

Lemma Rpower_one_base (y : R) : Rpower 1 y = 1.
Proof.
  unfold Rpower. rewrite ln_1, Rmult_0_r. apply exp_0.
Qed.

Lemma cumulative_cost_upper (c infl : R) (months : nat) :
  0 <= c -> 0 <= infl ->
  Client.calculateCumulativeCost c infl months
  <= INR months * c * Rpower (1 + infl) (INR months / 12).
Proof.
  intros Hc Hi. rewrite cumulative_cost_sum_first.
  assert (H : forall n k, (n <= k)%nat ->
            sum_first n (fun m => c * Rpower (1 + infl) (INR m / 12))
            <= INR n * c * Rpower (1 + infl) (INR k / 12)).
  { induction n as [|n IH]; intros k Hk; cbn [sum_first].
    - simpl. lra.
    - rewrite S_INR. specialize (IH k ltac:(lia)).
      assert (Hm : Rpower (1 + infl) (INR n / 12) <= Rpower (1 + infl) (INR k / 12)).
      { apply Rle_Rpower; [lra|]. apply le_INR in Hk. rewrite S_INR in Hk. lra. }
      nra. }
  apply H. lia.
Qed.

(** X14. [calculateCumulativeCost] over no month is zero; at zero
    inflation it is [months] times the base cost; and for a non-negative
    base cost and inflation it lies between [months] times the base cost and
    that amount inflated over the whole period, and grows with each further
    month. *)
Theorem X14_cumulative_cost_bounds (c infl : R) (months : nat) :
  0 <= c -> 0 <= infl ->
  Client.calculateCumulativeCost c infl 0 = 0
  /\ Client.calculateCumulativeCost c 0 months = INR months * c
  /\ INR months * c <= Client.calculateCumulativeCost c infl months
     <= INR months * c * Rpower (1 + infl) (INR months / 12)
  /\ Client.calculateCumulativeCost c infl months
     <= Client.calculateCumulativeCost c infl (S months).
Proof.
  intros Hc Hi. split; [reflexivity|]. split; [|split; [split|]].
  - rewrite cumulative_cost_sum_first.
    induction months as [|n IH]; cbn [sum_first]; [simpl; lra|].
    rewrite IH, S_INR, Rplus_0_r, Rpower_one_base. ring.
  - apply cumulative_cost_lower; assumption.
  - apply cumulative_cost_upper; assumption.
  - rewrite !cumulative_cost_sum_first. cbn [sum_first].
    pose proof (Rpower_pos (1 + infl) (INR months / 12)). nra.
Qed.

Lemma X14_witness :
  Client.calculateCumulativeCost 1000 0 12 = INR 12 * 1000
  /\ INR 12 * 1000 <= Client.calculateCumulativeCost 1000 0.075 12.
Proof.
  split.
  - apply (X14_cumulative_cost_bounds 1000 0 12); lra.
  - apply (X14_cumulative_cost_bounds 1000 0.075 12); lra.
Defined.

(** ** Loan payments *)



Lemma level_annuity_factor (r : R) (n : nat) :
  r <> 0 -> 1 + r <> 0 ->
  spec_levelStreamPV 1 r n = (1 - / (1 + r) ^ n) / r.
Proof.
  intros Hr H1. unfold spec_levelStreamPV.
  induction n as [|n IH]; [cbn; field; assumption|].
  cbn [sum_first]. rewrite IH.
  replace (n + 1)%nat with (S n) by lia. cbn [pow].
  assert (Hp : (1 + r) ^ n <> 0) by (apply pow_nonzero; assumption).
  field. repeat split; assumption.
Qed.

Lemma inverse_power_below_one (r : R) (n : nat) :
  0 < r -> (0 < n)%nat -> 0 < / (1 + r) ^ n < 1.
Proof.
  intros Hr Hn. destruct n as [|n]; [lia|].
  assert (Hp : 1 <= (1 + r) ^ n) by (apply pow_R1_Rle; lra).
  assert (Hg : 1 < (1 + r) ^ S n) by (cbn [pow]; nra).
  set (X := (1 + r) ^ S n) in *.
  split.
  - apply Rinv_0_lt_compat. lra.
  - rewrite <- Rinv_1. apply Rinv_lt_contravar; lra.
Qed.

(** X16. The payment amortises the loan: at a positive rate and over at
    least one month, the [termMonths] payments, each discounted with
    [presentValue] at the monthly rate, add up to the principal.  For a
    positive principal the payment exceeds a month's interest on it. *)
Theorem X16_payments_amortise_principal
    (principal annualRate : R) (termMonths : nat) :
  0 < annualRate -> (0 < termMonths)%nat ->
  let monthlyRate := annualRate / 100 / 12 in
  let payment := computeMonthlyPayment principal annualRate termMonths in
  array_from_sum termMonths (fun i => presentValue payment monthlyRate (i + 1))
  = principal
  /\ (0 < principal -> principal * monthlyRate < payment).
Proof.
  intros Hr Hn monthlyRate payment.
  assert (Hm : 0 < monthlyRate) by (subst monthlyRate; lra).
  destruct (inverse_power_below_one monthlyRate termMonths Hm Hn) as [Hv0 Hv1].
  assert (Hpay : payment
                 = principal * monthlyRate / (1 - / (1 + monthlyRate) ^ termMonths))
    by reflexivity.
  split.
  - rewrite array_from_sum_sum_first.
    change (sum_first termMonths
              (fun i => presentValue payment monthlyRate (i + 1)))
      with (spec_levelStreamPV payment monthlyRate termMonths).
    rewrite levelStream_scale, level_annuity_factor by lra.
    rewrite Hpay.
    set (v := / (1 + monthlyRate) ^ termMonths) in *.
    field. split; lra.
  - intros Hp. rewrite Hpay.
    set (v := / (1 + monthlyRate) ^ termMonths) in *.
    assert (Hi : 1 < / (1 - v)).
    { rewrite <- Rinv_1 at 1. apply Rinv_lt_contravar; lra. }
    unfold Rdiv. assert (0 < principal * monthlyRate) by nra. nra.
Qed.

Lemma X16_witness :
  array_from_sum 60 (fun i =>
    presentValue (computeMonthlyPayment 350000 11.75 60) (11.75 / 100 / 12) (i + 1))
  = 350000.
Proof.
  apply (X16_payments_amortise_principal 350000 11.75 60); [lra | lia].
Defined.

(** ** Without bank affiliation the total is the fuel saving *)

Lemma toFixed2_cents (k : Z) : toFixed2 (IZR k / 100) = IZR k / 100.
Proof.
  unfold toFixed2, Math_floor.
  destruct (Rlt_dec (IZR k / 100) 0) as [Hneg|Hpos].
  - rewrite (Zfloor_eq (- k) (- (IZR k / 100) * 100 + 1 / 2)).
    + rewrite opp_IZR. lra.
    + rewrite opp_IZR. lra.
  - rewrite (Zfloor_eq k (IZR k / 100 * 100 + 1 / 2)) by lra. reflexivity.
Qed.

Lemma toFixed2_idempotent (x : R) : toFixed2 (toFixed2 x) = toFixed2 x.
Proof.
  destruct (toFixed2_is_round2 x) as (k & -> & _). apply toFixed2_cents.
Qed.

Lemma no_bank_unrounded (data : CalculationInput) :
  hasNoBank data = true ->
  Server.pvEbucks data = 0 /\ Client.pvEbucks data = 0
  /\ Server.carbonTaxSavings data = 0.
Proof.
  intros Hnb.
  assert (R0 : Server.totalRate data = 0).
  { unfold Server.totalRate, Server.baseRate, Server.insuranceRate,
      Server.financingRate. rewrite Hnb. cbn [negb]. lra. }
  unfold Server.pvEbucks, Client.pvEbucks, Server.year1Ebucks,
    Client.year1Ebucks, Server.carbonTaxSavings.
  change (Client.totalRate data) with (Server.totalRate data).
  rewrite R0, Hnb. cbn [negb].
  replace (0 * Server.qualifyingLitres data * 12) with 0 by ring.
  replace (0 * Client.qualifyingLitres data * 12) with 0 by ring.
  rewrite !presentValueOfGrowingAnnuity_zero. repeat split.
Qed.

(** X17. Without bank affiliation the returned [upfrontSavings] is zero and
    the returned [totalSavings] is exactly the returned [fuelSpendSavings],
    on the server and on the client. *)
Theorem X17_no_bank_total_is_fuel_saving (data : CalculationInput) :
  hasNoBank data = true ->
  (upfrontSavings (Server.calculate data) = 0
   /\ totalSavings (Server.calculate data) = fuelSpendSavings (Server.calculate data))
  /\ (upfrontSavings (Client.calculateSavings data) = 0
      /\ totalSavings (Client.calculateSavings data)
         = fuelSpendSavings (Client.calculateSavings data)).
Proof.
  intros Hnb. destruct (no_bank_unrounded data Hnb) as (Ps & Pc & Ct).
  cbn [upfrontSavings totalSavings fuelSpendSavings Server.calculate
       Client.calculateSavings].
  unfold Server.totalSavings, Server.upfrontSavings, Client.upfrontSavings.
  change (Client.carbonTaxSavings data) with (Server.carbonTaxSavings data).
  rewrite Ps, Pc, Ct, !Rplus_0_l, Math_round2_zero, toFixed2_zero.
  repeat split. unfold Client.rawFuelSpendSavings. apply toFixed2_idempotent.
Qed.

Lemma X17_witness :
  totalSavings (Server.calculate example_no_bank)
  = fuelSpendSavings (Server.calculate example_no_bank)
  /\ totalSavings (Client.calculateSavings example_no_bank)
     = fuelSpendSavings (Client.calculateSavings example_no_bank).
Proof.
  pose proof (X17_no_bank_total_is_fuel_saving example_no_bank eq_refl)
    as [[_ Hs] [_ Hc]].
  split; assumption.
Defined.

(** ** The standard benefits as an upper bound *)

Lemma totalRate_reference (data : CalculationInput) :
  Server.totalRate (reference_scenario data) = 3.1.
Proof.
  unfold Server.totalRate, Server.baseRate, Server.insuranceRate,
    Server.financingRate, Server.level.
  cbn [ebucksLevel hasNoBank hasInsurance hasFinancing reference_scenario negb
       lookup_Z BASE_EBUCKS INSURANCE_RATES FINANCING_RATES Z.eqb Pos.eqb].
  rewrite !or_else_Some by lra. lra.
Qed.

Lemma totalRate_below_tier5 (data : CalculationInput) :
  ebucksLevel data <> 5%Z -> Server.totalRate data <= 3.1.
Proof.
  intros Hl.
  destruct (reward_rate_bounds (ebucksLevel data)) as [(Hb & Hi & Hf) Hlow].
  destruct (Hlow Hl) as (Hb4 & Hi4 & Hf4). cbv zeta in *.
  unfold Server.totalRate, Server.baseRate, Server.insuranceRate,
    Server.financingRate, Server.level.
  destruct (negb (hasNoBank data)), (hasInsurance data), (hasFinancing data); lra.
Qed.

Lemma server_standard_reference (data : CalculationInput) :
  standardUpfrontBenefits (Server.calculate data)
  = mkStandard
      (Math_round (Server.pvEbucks (reference_scenario data) * 100) / 100)
      (Math_round (Server.carbonTaxSavings (reference_scenario data) * 100) / 100)
      (Math_round (Server.upfrontSavings (reference_scenario data) * 100) / 100).
Proof. reflexivity. Qed.

Lemma client_standard_reference (data : CalculationInput) :
  standardUpfrontBenefits (Client.calculateSavings data)
  = mkStandard
      (Math_round (Client.pvEbucks (reference_scenario data) * 100) / 100)
      (Math_round (Client.carbonTaxSavings (reference_scenario data) * 100) / 100)
      (Math_round (Client.upfrontSavings (reference_scenario data) * 100) / 100).
Proof. rewrite client_standard_is_tier4. reflexivity. Qed.

Lemma below_reference (data : CalculationInput) :
  0 <= distance data -> ebucksLevel data <> 5%Z ->
  Server.year1Ebucks data <= Server.year1Ebucks (reference_scenario data)
  /\ Server.carbonTaxSavings data
     <= Server.carbonTaxSavings (reference_scenario data).
Proof.
  intros Hd Hl. split.
  - unfold Server.year1Ebucks. rewrite totalRate_reference.
    change (Server.qualifyingLitres (reference_scenario data))
      with (Server.qualifyingLitres data).
    pose proof (totalRate_below_tier5 data Hl).
    pose proof (qualifyingLitres_nonneg data Hd). nra.
  - rewrite !carbonTaxSavings_factor.
    change (Server.monthlyLitres (reference_scenario data))
      with (Server.monthlyLitres data).
    cbn [hasNoBank reference_scenario].
    pose proof carbonTaxPV_unit_pos. pose proof (monthlyLitres_nonneg data Hd).
    destruct (hasNoBank data); nra.
Qed.

(** X18. Below tier 5 the standard benefits are an upper bound: for a
    non-negative distance and any tier other than 5, with or without add-ons
    and bank affiliation, the returned rewards, carbon-tax savings and upfront
    savings do not exceed the corresponding standard figures of the same
    response. *)
Theorem X18_standard_benefits_bound_below_tier5 (data : CalculationInput) :
  0 <= distance data -> ebucksLevel data <> 5%Z ->
  (let r := Server.calculate data in
   presentValueEbucks r <= std_presentValueEbucks (standardUpfrontBenefits r)
   /\ carbonTaxSavings r <= std_carbonTaxSavings (standardUpfrontBenefits r)
   /\ upfrontSavings r <= std_upfrontSavings (standardUpfrontBenefits r))
  /\ (let r := Client.calculateSavings data in
      presentValueEbucks r <= std_presentValueEbucks (standardUpfrontBenefits r)
      /\ carbonTaxSavings r <= std_carbonTaxSavings (standardUpfrontBenefits r)
      /\ upfrontSavings r <= std_upfrontSavings (standardUpfrontBenefits r)).
Proof.
  intros Hd Hl. cbv zeta.
  rewrite server_standard_reference, client_standard_reference.
  cbn [std_presentValueEbucks std_carbonTaxSavings std_upfrontSavings
       presentValueEbucks carbonTaxSavings upfrontSavings Server.calculate
       Client.calculateSavings].
  destruct (below_reference data Hd Hl) as [Hy Hc].
  destruct (pvEbucks_nonneg data Hd) as [Hs0 Hc0].
  pose proof (carbonTaxSavings_nonneg data Hd) as Ht0.
  assert (Ps : Server.pvEbucks data <= Server.pvEbucks (reference_scenario data)).
  { rewrite !server_pvEbucks_factor.
    apply Rmult_le_compat_r; [apply escalatedStream_unit_nonneg; lra | exact Hy]. }
  assert (Pc : Client.pvEbucks data <= Client.pvEbucks (reference_scenario data)).
  { rewrite !client_pvEbucks_factor.
    apply Rmult_le_compat_r; [apply escalatedStream_unit_nonneg; lra | exact Hy]. }
  unfold Server.upfrontSavings, Client.upfrontSavings.
  change Client.carbonTaxSavings with Server.carbonTaxSavings.
  rewrite !toFixed2_nonneg by lra.
  repeat split; apply round2_le; lra.
Qed.

Lemma X18_witness :
  presentValueEbucks (Server.calculate example_request)
  <= std_presentValueEbucks (standardUpfrontBenefits (Server.calculate example_request))
  /\ upfrontSavings (Client.calculateSavings example_request)
     <= std_upfrontSavings
          (standardUpfrontBenefits (Client.calculateSavings example_request)).
Proof.
  assert (Hd : 0 <= distance example_request) by (simpl; lra).
  assert (Hl : ebucksLevel example_request <> 5%Z) by (simpl; lia).
  pose proof (X18_standard_benefits_bound_below_tier5 example_request Hd Hl)
    as [(Hs & _) (_ & _ & Hc)].
  split; assumption.
Defined.

(** ** Rewards grow with the tier and the add-ons *)

Lemma reward_rates_monotone (l1 l2 : Z) :
  (1 <= l1 <= l2)%Z -> (l2 <= 5)%Z ->
  or_else (lookup_Z BASE_EBUCKS l1) 0 <= or_else (lookup_Z BASE_EBUCKS l2) 0
  /\ or_else (lookup_Z INSURANCE_RATES l1) 0
     <= or_else (lookup_Z INSURANCE_RATES l2) 0
  /\ or_else (lookup_Z FINANCING_RATES l1) 0
     <= or_else (lookup_Z FINANCING_RATES l2) 0.
Proof.
  intros H1 H2.
  assert (E1 : (l1 = 1 \/ l1 = 2 \/ l1 = 3 \/ l1 = 4 \/ l1 = 5)%Z) by lia.
  assert (E2 : (l2 = 1 \/ l2 = 2 \/ l2 = 3 \/ l2 = 4 \/ l2 = 5)%Z) by lia.
  destruct E1 as [->|[->|[->|[->| ->]]]], E2 as [->|[->|[->|[->| ->]]]];
    try lia;
    cbn [lookup_Z BASE_EBUCKS INSURANCE_RATES FINANCING_RATES Z.eqb Pos.eqb];
    rewrite !or_else_Some by lra; lra.
Qed.

(** X19. Rewards never shrink with a higher tier or an added add-on: of two
    requests with the same fuel type, non-negative distance and bank flag,
    the one with the higher tier (both within 1..5) and at least the
    add-ons of the other gets at least its [presentValueEbucks] and
    [upfrontSavings]. *)
Theorem X19_rewards_grow_with_tier_and_addons (d1 d2 : CalculationInput) :
  fuelType d1 = fuelType d2 -> distance d1 = distance d2 -> 0 <= distance d1 ->
  hasNoBank d1 = hasNoBank d2 ->
  (1 <= ebucksLevel d1 <= ebucksLevel d2)%Z -> (ebucksLevel d2 <= 5)%Z ->
  (hasInsurance d1 = true -> hasInsurance d2 = true) ->
  (hasFinancing d1 = true -> hasFinancing d2 = true) ->
  (presentValueEbucks (Server.calculate d1) <= presentValueEbucks (Server.calculate d2)
   /\ upfrontSavings (Server.calculate d1) <= upfrontSavings (Server.calculate d2))
  /\ (presentValueEbucks (Client.calculateSavings d1)
      <= presentValueEbucks (Client.calculateSavings d2)
      /\ upfrontSavings (Client.calculateSavings d1)
         <= upfrontSavings (Client.calculateSavings d2)).
Proof.
  intros Hf Hx Hd Hnb Hl1 Hl2 Hi Hfi.
  destruct (reward_rates_monotone _ _ Hl1 Hl2) as (Mb & Mi & Mf).
  destruct (reward_rate_bounds (ebucksLevel d2)) as [(Bb & Bi & Bf) _].
  cbv zeta in *.
  assert (T : Server.totalRate d1 <= Server.totalRate d2).
  { unfold Server.totalRate, Server.baseRate, Server.insuranceRate,
      Server.financingRate, Server.level.
    rewrite <- Hnb.
    destruct (hasNoBank d1); cbn [negb]; [lra|].
    destruct (hasInsurance d1), (hasFinancing d1);
      try rewrite (Hi eq_refl); try rewrite (Hfi eq_refl);
      destruct (hasInsurance d2), (hasFinancing d2); lra. }
  assert (Q : Server.qualifyingLitres d1 = Server.qualifyingLitres d2).
  { unfold Server.qualifyingLitres, Server.effectiveFuelSpend,
      Server.monthlyFuelSpend, Server.monthlyLitres, Server.consumptionRate,
      Server.fuelPrice, Server.distanceMonthly.
    rewrite Hf, Hx. reflexivity. }
  assert (Y : Server.year1Ebucks d1 <= Server.year1Ebucks d2).
  { unfold Server.year1Ebucks. rewrite <- Q.
    pose proof (qualifyingLitres_nonneg d1 Hd). nra. }
  assert (C : Server.carbonTaxSavings d1 = Server.carbonTaxSavings d2).
  { rewrite !carbonTaxSavings_factor.
    unfold Server.monthlyLitres, Server.consumptionRate, Server.distanceMonthly.
    rewrite Hf, Hx, Hnb. reflexivity. }
  assert (Ps : Server.pvEbucks d1 <= Server.pvEbucks d2).
  { rewrite !server_pvEbucks_factor.
    apply Rmult_le_compat_r; [apply escalatedStream_unit_nonneg; lra | exact Y]. }
  assert (Pc : Client.pvEbucks d1 <= Client.pvEbucks d2).
  { rewrite !client_pvEbucks_factor.
    apply Rmult_le_compat_r; [apply escalatedStream_unit_nonneg; lra | exact Y]. }
  cbn [presentValueEbucks upfrontSavings Server.calculate Client.calculateSavings].
  unfold Server.upfrontSavings, Client.upfrontSavings.
  change Client.carbonTaxSavings with Server.carbonTaxSavings.
  rewrite C.
  repeat split; (apply round2_le || apply toFixed2_le); lra.
Qed.

Lemma X19_witness :
  presentValueEbucks (Server.calculate request_tier2_800km)
  <= presentValueEbucks
       (Server.calculate
          {| ebucksLevel := 4; fuelType := "diesel"; distance := 800;
             hasInsurance := true; hasFinancing := true; hasSolar := true;
             hasNoBank := false; loanTermYears := 2 |}).
Proof.
  apply (X19_rewards_grow_with_tier_and_addons request_tier2_800km
           {| ebucksLevel := 4; fuelType := "diesel"; distance := 800;
              hasInsurance := true; hasFinancing := true; hasSolar := true;
              hasNoBank := false; loanTermYears := 2 |});
    try reflexivity; cbn [distance ebucksLevel request_tier2_800km];
    try lra; try lia; auto.
Defined.

(** ** The calculator page against the offline engine *)

Lemma filter_seq_last (p : nat -> bool) (n : nat) :
  p (S n) = true ->
  filter p (seq 1 (S n)) = filter p (seq 1 n) ++ [S n].
Proof.
  intros Hp. rewrite seq_S, filter_app. cbn [filter Nat.add]. rewrite Hp.
  reflexivity.
Qed.

Lemma last_map_filter_seq {A : Type} (f : nat -> A) (p : nat -> bool)
    (n : nat) (dflt : A) :
  p (S n) = true -> last (map f (filter p (seq 1 (S n)))) dflt = f (S n).
Proof.
  intros Hp. rewrite filter_seq_last by assumption.
  rewrite map_app. cbn [map]. apply last_last.
Qed.

Lemma app_ice_fuel_cost (st : App.State) :
  known_fuelType (App.fuelType st) ->
  forall years level ins fin nb,
    App.calculateICEMonthlyFuelCost st
    = Some (Client.monthlyFuelSpend (request_of_state st years level ins fin nb)).
Proof.
  intros Hk years level ins fin nb.
  unfold App.calculateICEMonthlyFuelCost, App.getICEFuelConsumption,
    App.getFuelPrice, Client.monthlyFuelSpend, Client.monthlyLitres,
    Client.consumptionRate, Client.fuelPrice, Client.distanceMonthly.
  cbn [fuelType distance request_of_state].
  destruct Hk as [-> | [-> | ->]];
    cbn [lookup_str App.ice_fuelConsumption FUEL_CONSUMPTION FUEL_PRICES];
    repeat match goal with
           | |- context [String.eqb ?a ?b] =>
               let v := eval vm_compute in (String.eqb a b) in
               change (String.eqb a b) with v
           end;
    cbv iota; cbv zeta; rewrite !or_else_Some by lra; reflexivity.
Qed.

Lemma app_ev_charging_cost (st : App.State) :
  App.vehicleType st = App.ev ->
  forall years level ins fin nb,
    App.calculateMonthlyChargingCost st
    = Client.monthlyChargingCost (request_of_state st years level ins fin nb).
Proof.
  intros Hev years level ins fin nb.
  unfold App.calculateMonthlyChargingCost, Client.monthlyChargingCost,
    Client.baseMonthlyChargingCost, Client.monthlyEvConsumption,
    Client.monthlyChargingRate, Client.distanceMonthly.
  rewrite Hev. cbn [hasSolar distance request_of_state].
  unfold App.ev_electricConsumption, EV_CONSUMPTION, ESKOM_RATE,
    STANDARD_ESKOM_RATE, PREMIUM_ESKOM_RATE.
  destruct (App.hasSolar st); reflexivity.
Qed.

(** X20. For an EV, a listed fuel type and a loan term of whole years, the
    page's own [rawFuelSpendSavings] (the last point of its cumulative
    savings chart) is the [fuelSpendSavings] that the offline engine returns
    for the request the page sends. *)
Theorem X20_page_raw_savings_is_engine_fuel_saving
    (st : App.State) (years : nat) (level : Z) (ins fin nb : bool) :
  App.vehicleType st = App.ev -> known_fuelType (App.fuelType st) ->
  (0 < years)%nat -> App.loanTerm st = (years * 12)%nat ->
  App.rawFuelSpendSavings st
  = Some (fuelSpendSavings
            (Client.calculateSavings (request_of_state st years level ins fin nb))).
Proof.
  intros Hev Hk Hy Hterm.
  unfold App.rawFuelSpendSavings, App.fuelComparisonData,
    App.createFuelComparisonData.
  cbv zeta. cbn [App.cumulativeSavings].
  destruct (App.loanTerm st) as [|n] eqn:En; [lia|].
  rewrite last_map_filter_seq.
  2: { rewrite Nat.eqb_refl. cbn [negb andb]. rewrite !andb_false_r. reflexivity. }
  rewrite (app_ice_fuel_cost st Hk years level ins fin nb), Hev.
  rewrite (app_ev_charging_cost st Hev years level ins fin nb).
  cbn [option_map fuelSpendSavings Client.calculateSavings].
  unfold Client.rawFuelSpendSavings, Client.cumFuel, Client.cumCharge,
    Client.totalMonths, Client.loanTermYears.
  cbn [loanTermYears request_of_state].
  destruct years as [|y]; [lia|]. cbn [Nat.eqb].
  rewrite Hterm. reflexivity.
Qed.

Lemma X20_witness :
  App.rawFuelSpendSavings initial_state
  = Some (fuelSpendSavings
            (Client.calculateSavings
               (request_of_state initial_state 5 3 true true false))).
Proof.
  apply (X20_page_raw_savings_is_engine_fuel_saving initial_state 5 3 true true false).
  - reflexivity.
  - right. left. reflexivity.
  - lia.
  - reflexivity.
Defined.

Lemma app_ice_consumption_known (st : App.State) :
  known_fuelType (App.fuelType st) ->
  exists c, App.getICEFuelConsumption st = Some c /\ 8 <= c <= 9
            /\ lookup_str App.hybrid_fuelConsumption (App.fuelType st)
               = Some (c * 0.6).
Proof.
  intros Hk. unfold App.getICEFuelConsumption.
  destruct Hk as [-> | [-> | ->]].
  - exists 8. cbn. repeat split; try lra. f_equal. lra.
  - exists 9. cbn. repeat split; try lra. f_equal. lra.
  - exists 9. cbn. repeat split; try lra. f_equal. lra.
Qed.

(** X21. For a listed fuel type, a positive battery capacity and a positive
    tank size, the plug-in hybrid's fuel consumption is at least the floor of
    1.5 l/100 km and strictly below the consumption of the ICE vehicle. *)
Theorem X21_phev_consumption_bounds (st : App.State) :
  known_fuelType (App.fuelType st) ->
  0 < App.phevBatteryCapacity st -> 0 < App.phevFuelTankSize st ->
  exists phevConsumption iceConsumption,
    App.calculatePHEVFuelConsumption st = Some phevConsumption
    /\ App.getICEFuelConsumption st = Some iceConsumption
    /\ 1.5 <= phevConsumption < iceConsumption.
Proof.
  intros Hk Hb Ht.
  destruct (app_ice_consumption_known st Hk) as (c & Hc & Hr & _).
  unfold App.calculatePHEVFuelConsumption.
  pose proof Hc as Hl. unfold App.getICEFuelConsumption in Hl.
  rewrite Hl. cbv zeta.
  eexists. exists c. split; [reflexivity|]. split; [exact Hc|].
  unfold App.phev_electricConsumption.
  set (br := App.phevBatteryCapacity st / 0.189).
  set (fr := App.phevFuelTankSize st / c * 100).
  assert (Hbr : 0 < br) by (subst br; apply Rdiv_lt_0_compat; lra).
  assert (Hfr : 0 < fr).
  { subst fr. apply Rmult_lt_0_compat; [|lra]. apply Rdiv_lt_0_compat; lra. }
  assert (Hq : 0 < br / (br + fr) < 1).
  { split.
    - apply Rdiv_lt_0_compat; lra.
    - apply Rmult_lt_reg_r with (r := br + fr); [lra|].
      unfold Rdiv. rewrite Rmult_assoc, Rinv_l by lra. lra. }
  set (q := br / (br + fr)) in *.
  split.
  - apply Rmax_r.
  - apply Rmax_lub_lt; nra.
Qed.

Lemma X21_witness :
  exists phevConsumption iceConsumption,
    App.calculatePHEVFuelConsumption initial_state_phev = Some phevConsumption
    /\ App.getICEFuelConsumption initial_state_phev = Some iceConsumption
    /\ 1.5 <= phevConsumption < iceConsumption.
Proof.
  apply (X21_phev_consumption_bounds initial_state_phev).
  - right. left. reflexivity.
  - simpl. lra.
  - simpl. lra.
Defined.

(** X22. The page's tables have no default: for a fuel type that they do
    not list, the ICE fuel cost is not a number, and with at least one month
    of loan term neither is the page's [rawFuelSpendSavings]; the engine
    serves the same fuel type as petrol 95. *)
Theorem X22_page_has_no_default_fuel (st : App.State) :
  ~ known_fuelType (App.fuelType st) -> (0 < App.loanTerm st)%nat ->
  App.calculateICEMonthlyFuelCost st = None
  /\ App.rawFuelSpendSavings st = None.
Proof.
  intros Hk Hn.
  assert (Hl : lookup_str App.ice_fuelConsumption (App.fuelType st) = None).
  { unfold known_fuelType in Hk. cbn [lookup_str App.ice_fuelConsumption].
    destruct (String.eqb_spec (App.fuelType st) "petrol95"); [tauto|].
    destruct (String.eqb_spec (App.fuelType st) "petrol93"); [tauto|].
    destruct (String.eqb_spec (App.fuelType st) "diesel"); [tauto|].
    reflexivity. }
  assert (Hc : App.calculateICEMonthlyFuelCost st = None).
  { unfold App.calculateICEMonthlyFuelCost, App.getICEFuelConsumption.
    rewrite Hl. reflexivity. }
  split; [exact Hc|].
  unfold App.rawFuelSpendSavings, App.fuelComparisonData,
    App.createFuelComparisonData.
  cbv zeta. cbn [App.cumulativeSavings].
  destruct (App.loanTerm st) as [|n]; [lia|].
  rewrite last_map_filter_seq.
  2: { rewrite Nat.eqb_refl. cbn [negb andb]. rewrite !andb_false_r. reflexivity. }
  rewrite Hc. reflexivity.
Qed.

Lemma X22_witness :
  App.rawFuelSpendSavings
    {| App.distance := 1500; App.fuelType := "lpg"; App.hasSolar := false;
       App.loanTerm := 60; App.vehicleType := App.ev;
       App.phevBatteryCapacity := 13.8; App.phevFuelTankSize := 45 |}
  = None.
Proof.
  apply (X22_page_has_no_default_fuel
           {| App.distance := 1500; App.fuelType := "lpg"; App.hasSolar := false;
              App.loanTerm := 60; App.vehicleType := App.ev;
              App.phevBatteryCapacity := 13.8; App.phevFuelTankSize := 45 |}).
  - unfold known_fuelType. cbn [App.fuelType].
    intros [H | [H | H]]; discriminate H.
  - cbn [App.loanTerm]. lia.
Defined.

(** X23. For every listed fuel type a hybrid's monthly fuel cost is 60% of
    the ICE vehicle's (the "40% reduction" of the table), and it charges
    nothing. *)
Theorem X23_hybrid_fuel_cost_is_60_percent (st : App.State) :
  App.vehicleType st = App.hybrid -> known_fuelType (App.fuelType st) ->
  exists iceCost,
    App.calculateICEMonthlyFuelCost st = Some iceCost
    /\ App.calculateNEVMonthlyFuelCost st = Some (iceCost * 0.6)
    /\ App.calculateMonthlyChargingCost st = 0.
Proof.
  intros Hh Hk.
  destruct (app_ice_consumption_known st Hk) as (c & Hc & _ & Hhy).
  unfold App.calculateICEMonthlyFuelCost, App.calculateNEVMonthlyFuelCost,
    App.getNEVFuelConsumption, App.calculateMonthlyChargingCost.
  rewrite Hc, Hh, Hhy. cbv zeta.
  eexists. split; [reflexivity|]. split.
  - f_equal. unfold Rdiv. ring.
  - destruct (App.hasSolar st); ring.
Qed.

Lemma X23_witness :
  exists iceCost,
    App.calculateICEMonthlyFuelCost
      {| App.distance := 1500; App.fuelType := "diesel"; App.hasSolar := true;
         App.loanTerm := 36; App.vehicleType := App.hybrid;
         App.phevBatteryCapacity := 13.8; App.phevFuelTankSize := 45 |}
    = Some iceCost
    /\ App.calculateNEVMonthlyFuelCost
         {| App.distance := 1500; App.fuelType := "diesel"; App.hasSolar := true;
            App.loanTerm := 36; App.vehicleType := App.hybrid;
            App.phevBatteryCapacity := 13.8; App.phevFuelTankSize := 45 |}
       = Some (iceCost * 0.6).
Proof.
  destruct (X23_hybrid_fuel_cost_is_60_percent
              {| App.distance := 1500; App.fuelType := "diesel"; App.hasSolar := true;
                 App.loanTerm := 36; App.vehicleType := App.hybrid;
                 App.phevBatteryCapacity := 13.8; App.phevFuelTankSize := 45 |}
              eq_refl (or_introl eq_refl)) as (c & H1 & H2 & _).
  exists c. split; assumption.
Defined.
